(** * zerotier-gui: the orchestration core of [zerotier-gui.py] in Rocq

    A shallow embedding of the parts of [zerotier-gui.py] that carry logic:
    the command executor [cmd], the capability probes, the dispatcher script
    writer and reader, the single-flight runner [_run_async], the service
    action controller and the two record parsers of [_apply_refresh].

    Conventions.
    - A Python [str] is a Rocq [string]; a character stands for the code
      point of the same number, so the model covers the code points below
      256 (the daemon's output and everything the program writes are ASCII).
    - Python's builtins ([str.strip], [str.split], [str.lower], [in] on
      strings, [int(s, 16)]) are written out in [Module Py] after CPython.
    - Code that talks to the operating system runs in a small state and
      exception monad over the history of effects performed so far; what the
      operating system answers is an oracle that reads that history. *)

From Stdlib Require Import String Ascii List ZArith Lia Bool Arith.
Import ListNotations.

#[local] Open Scope list_scope.
#[local] Open Scope string_scope.
#[local] Open Scope nat_scope.

(* ================================================================== *)
(** * Python builtins on strings *)
(* ================================================================== *)

Module Py.

(** Code point of a character. *)
Definition ord (c : ascii) : nat := nat_of_ascii c.

Definition between (lo hi n : nat) : bool := (lo <=? n) && (n <=? hi).

(** [str.isspace] on one character (Py_UNICODE_ISSPACE): the ASCII
    whitespace table of CPython, then NEL and NBSP. *)
Definition isspace (c : ascii) : bool :=
  let n := ord c in
  between 9 13 n || between 28 32 n || (n =? 133) || (n =? 160).

(** Truth value of a [str]: empty is false. *)
Definition truthy (s : string) : bool :=
  match s with EmptyString => false | String _ _ => true end.

(** [s.lstrip()], [s.rstrip()], [s.strip()]. *)
Fixpoint lstrip (s : string) : string :=
  match s with
  | EmptyString => EmptyString
  | String c r => if isspace c then lstrip r else s
  end.

Fixpoint rstrip (s : string) : string :=
  match s with
  | EmptyString => EmptyString
  | String c r =>
      match rstrip r with
      | EmptyString => if isspace c then EmptyString else String c EmptyString
      | r' => String c r'
      end
  end.

Definition strip (s : string) : string := rstrip (lstrip s).

(** [s.split()]: the maximal runs of non-whitespace characters. *)
Fixpoint split_from (cur s : string) : list string :=
  match s with
  | EmptyString => if truthy cur then [cur] else []
  | String c r =>
      if isspace c
      then (if truthy cur then cur :: split_from EmptyString r
            else split_from EmptyString r)
      else split_from (cur ++ String c EmptyString) r
  end.

Definition split (s : string) : list string := split_from EmptyString s.

(** [s.split(sep)] for a one-character separator: empty pieces are kept
    and the empty string gives one empty piece. *)
Fixpoint split_on_from (sep : ascii) (cur s : string) : list string :=
  match s with
  | EmptyString => [cur]
  | String c r =>
      if Ascii.eqb c sep then cur :: split_on_from sep EmptyString r
      else split_on_from sep (cur ++ String c EmptyString) r
  end.

Definition split_on (sep : ascii) (s : string) : list string :=
  split_on_from sep EmptyString s.

(** [s.split(sep, 1)]: cut at the first separator only. *)
Fixpoint split1_from (sep : ascii) (cur s : string) : list string :=
  match s with
  | EmptyString => [cur]
  | String c r =>
      if Ascii.eqb c sep then [cur; r]
      else split1_from sep (cur ++ String c EmptyString) r
  end.

Definition split1 (sep : ascii) (s : string) : list string :=
  split1_from sep EmptyString s.

(** [s.startswith(p)] and [needle in hay]. *)
Fixpoint startswith (s p : string) : bool :=
  match p, s with
  | EmptyString, _ => true
  | String a p', String b s' => Ascii.eqb a b && startswith s' p'
  | String _ _, EmptyString => false
  end.

Fixpoint contains (needle hay : string) : bool :=
  startswith hay needle ||
  match hay with
  | EmptyString => false
  | String _ r => contains needle r
  end.

(** [s.lower()] on the code points below 256: A-Z, and the accented
    capitals 192-222 except the multiplication sign 215. *)
Definition lower_char (c : ascii) : ascii :=
  let n := ord c in
  if between 65 90 n || (between 192 222 n && negb (n =? 215))
  then ascii_of_nat (n + 32) else c.

Fixpoint lower (s : string) : string :=
  match s with
  | EmptyString => EmptyString
  | String c r => String (lower_char c) (lower r)
  end.

(** [s[:n]]. *)
Fixpoint take (n : nat) (s : string) : string :=
  match n, s with
  | S n', String c r => String c (take n' r)
  | _, _ => EmptyString
  end.

(** [sep.join(l)]. *)
Fixpoint join (sep : string) (l : list string) : string :=
  match l with
  | [] => EmptyString
  | [x] => x
  | x :: r => x ++ sep ++ join sep r
  end.

(** ** [int(s, 16)]

    CPython's [PyLong_FromUnicodeObject] followed by [PyLong_FromString]
    with base 16.  [None] stands for [ValueError]. *)

(** [_PyLong_DigitValue]: 37 marks a character that is no digit. *)
Definition digit_value (c : ascii) : Z :=
  let n := ord c in
  if between 48 57 n then Z.of_nat (n - 48)
  else if between 97 122 n then Z.of_nat (n - 87)
  else if between 65 90 n then Z.of_nat (n - 55)
  else 37%Z.

(** [Py_ISSPACE], the C-locale test applied to the byte buffer. *)
Definition c_isspace (c : ascii) : bool :=
  let n := ord c in between 9 13 n || (n =? 32).

(** [_PyUnicode_TransformDecimalAndSpaceToASCII]: code points below 127 are
    kept, other whitespace becomes a blank, and the first other character
    becomes a question mark that ends the buffer (no code point between
    127 and 255 is a decimal digit). *)
Fixpoint transform_decimal_and_space (s : string) : string :=
  match s with
  | EmptyString => EmptyString
  | String c r =>
      if ord c <? 127 then String c (transform_decimal_and_space r)
      else if isspace c then String " "%char (transform_decimal_and_space r)
      else String "?"%char EmptyString
  end.

Fixpoint skip_space (s : string) : string :=
  match s with
  | EmptyString => EmptyString
  | String c r => if c_isspace c then skip_space r else s
  end.

(** The digit scan: single underscores may separate digits, none may end
    them.  Returns the value, the number of digits and the rest. *)
Fixpoint scan_digits (prev_underscore : bool) (acc : Z) (ndigits : nat)
    (s : string) : option (Z * nat * string) :=
  match s with
  | EmptyString =>
      if prev_underscore then None else Some (acc, ndigits, EmptyString)
  | String c r =>
      if Ascii.eqb c "_"%char then
        if prev_underscore then None else scan_digits true acc ndigits r
      else if (digit_value c <? 16)%Z then
        scan_digits false (acc * 16 + digit_value c)%Z (S ndigits) r
      else if prev_underscore then None else Some (acc, ndigits, s)
  end.

Definition int16 (u : string) : option Z :=
  let s1 := skip_space (transform_decimal_and_space u) in
  let '(sign, s2) :=
    match s1 with
    | String "+"%char r => (1%Z, r)
    | String "-"%char r => ((-1)%Z, r)
    | _ => (1%Z, s1)
    end in
  let s3 :=
    match s2 with
    | String "0"%char (String x r) =>
        if Ascii.eqb x "x"%char || Ascii.eqb x "X"%char then
          match r with
          | String "_"%char r' => r'      (* one underscore allowed here *)
          | _ => r
          end
        else s2
    | _ => s2
    end in
  match s3 with
  | String "_"%char _ => None             (* may not start with underscores *)
  | _ =>
      match scan_digits false 0%Z 0 s3 with
      | Some (v, n, rest) =>
          if (n =? 0)%nat then None
          else match skip_space rest with
               | EmptyString => Some (sign * v)%Z
               | String _ _ => None
               end
      | None => None
      end
  end.

(** A hexadecimal digit, as the specification means it: 0-9, a-f, A-F. *)
Definition is_hex_digit (c : ascii) : bool :=
  let n := ord c in
  between 48 57 n || between 97 102 n || between 65 70 n.

Fixpoint all_hex (s : string) : bool :=
  match s with
  | EmptyString => true
  | String c r => is_hex_digit c && all_hex r
  end.

(** The double quote, which a string literal of this file never holds. *)
Definition dq : string := String (ascii_of_nat 34) EmptyString.

End Py.

(* ================================================================== *)
(** * Exceptions, effects and the monad of worker code *)
(* ================================================================== *)

(** The exception classes that matter here.  [FileNotFoundError] and
    [PermissionError] derive from [OSError]; [subprocess.TimeoutExpired]
    does not; [ValueError] (an argument with an embedded NUL, output that
    does not decode) and [IndexError] (an empty argument vector) are what
    [subprocess.run] raises besides. *)
Inductive PyExc : Type :=
| TimeoutExpired
| FileNotFoundError
| PermissionError
| OSError
| ValueError
| IndexError.

Definition PyExc_eqb (a b : PyExc) : bool :=
  match a, b with
  | TimeoutExpired, TimeoutExpired
  | FileNotFoundError, FileNotFoundError
  | PermissionError, PermissionError
  | OSError, OSError
  | ValueError, ValueError
  | IndexError, IndexError => true
  | _, _ => false
  end.

(** [issubclass e c]. *)
Definition issubclass (e c : PyExc) : bool :=
  PyExc_eqb e c ||
  match e, c with
  | FileNotFoundError, OSError | PermissionError, OSError => true
  | _, _ => false
  end.

(** Does an [except (c1, c2, ...)] clause catch [e]? *)
Definition caught (e : PyExc) (classes : list PyExc) : bool :=
  existsb (issubclass e) classes.

Inductive Res (A : Type) : Type :=
| Ok (a : A)
| Raise (e : PyExc).
Arguments Ok {A} a.
Arguments Raise {A} e.

(** The callbacks handed to [GLib.idle_add]. *)
Inductive Callback : Type :=
| RefreshAsync.                       (* self.refresh_async *)

(** The effects worker code performs; times are in seconds for a timeout
    and in milliseconds for a sleep ([time.sleep(0.5)] is [EvSleep 500]). *)
Inductive Event : Type :=
| EvRun (argv : list string) (timeout : Z)     (* subprocess.run *)
| EvWhich (name : string)                      (* shutil.which *)
| EvSleep (ms : Z)                             (* time.sleep *)
| EvIdleAdd (cb : Callback).                   (* GLib.idle_add *)

Definition History : Type := list Event.

(** [subprocess.CompletedProcess]. *)
Record CompletedProcess : Type := {
  returncode : Z;
  stdout : string
}.

(** The operating system: what a command does and what [shutil.which]
    finds, given everything done before. *)
Record Env : Type := {
  run_outcome : History -> list string -> Z -> Res CompletedProcess;
  which_outcome : History -> string -> option string
}.

(** Code with effects: a state [S] is threaded and an exception may end the
    computation.  Worker code threads the history of its effects. *)
Definition St (S A : Type) : Type := S -> Res A * S.

Definition M (A : Type) : Type := St History A.

Definition ret {S A} (a : A) : St S A := fun s => (Ok a, s).

Definition bind {S A B} (m : St S A) (k : A -> St S B) : St S B :=
  fun s =>
    match m s with
    | (Ok a, s') => k a s'
    | (Raise e, s') => (Raise e, s')
    end.

(** [try: body  except classes: handler]. *)
Definition try_except {S A} (body : St S A) (classes : list PyExc)
    (handler : St S A) : St S A :=
  fun s =>
    match body s with
    | (Ok a, s') => (Ok a, s')
    | (Raise e, s') => if caught e classes then handler s' else (Raise e, s')
    end.

Definition emit (ev : Event) : M unit := fun h => (Ok tt, (h ++ [ev])%list).

Declare Scope py_scope.
Delimit Scope py_scope with py.
Notation "x <- m ;; k" := (bind m (fun x => k))
  (at level 61, m at next level, right associativity) : py_scope.
Notation "m ;;; k" := (bind m (fun _ => k))
  (at level 61, right associativity) : py_scope.
#[local] Open Scope py_scope.

Definition CMD_TIMEOUT : Z := 5.

Section Worker.

Variable env : Env.

Definition subprocess_run (argv : list string) (timeout : Z)
    : M CompletedProcess :=
  fun h => (run_outcome env h argv timeout, (h ++ [EvRun argv timeout])%list).

Definition which (name : string) : M (option string) :=
  fun h => (Ok (which_outcome env h name), (h ++ [EvWhich name])%list).

Definition sleep (ms : Z) : M unit := emit (EvSleep ms).

Definition idle_add (cb : Callback) : M unit := emit (EvIdleAdd cb).

(** [cmd], called with an argument vector and a timeout that defaults to
    [CMD_TIMEOUT]: the standard output, stripped, or
    the empty string when one of the three listed exceptions is raised. *)
Definition cmd (argv : list string) (timeout : Z) : M string :=
  try_except
    (r <- subprocess_run argv timeout ;; ret (Py.strip (stdout r)))
    [TimeoutExpired; FileNotFoundError; OSError]
    (ret "").

(** Truth value of what [shutil.which] returns and of the tri-state
    capability flags. *)
Definition path_truthy (p : option string) : bool :=
  match p with Some s => Py.truthy s | None => false end.

Definition flag_truthy (b : option bool) : bool :=
  match b with Some true => true | _ => false end.

(** One turn of the loop over the lines of [systemctl show]. *)
Definition service_info_line (acc : string * bool) (line : string)
    : string * bool :=
  let '(state, enabled) := acc in
  if Py.startswith line "ActiveState=" then
    (nth 1 (Py.split1 "="%char line) "", enabled)
  else if Py.startswith line "UnitFileState=" then
    (state, String.eqb (nth 1 (Py.split1 "="%char line) "") "enabled")
  else (state, enabled).

Definition newline : ascii := "010"%char.

(** [get_service_info]: [(active_state, is_enabled, cli_online)]. *)
Definition get_service_info (has_systemd : option bool)
    : M (string * bool * bool) :=
  info <- cmd ["zerotier-cli"; "info"] CMD_TIMEOUT ;;
  let cli_online := Py.contains "online" (Py.lower info) in
  if negb (flag_truthy has_systemd) then ret ("unknown", false, cli_online)
  else
    out <- cmd ["systemctl"; "show"; "zerotier-one";
                "--property=ActiveState,UnitFileState"] CMD_TIMEOUT ;;
    let '(state, enabled) :=
      fold_left service_info_line (Py.split_on newline out)
                ("unknown", false) in
    ret (state, enabled, cli_online).

(** [detect_firewall]: each probe is the nested pair of [if]s of the
    source; a probe that answers yes returns at once. *)
Definition probe_firewalld : M bool :=
  p <- which "firewall-cmd" ;;
  if path_truthy p then
    out <- cmd ["systemctl"; "is-active"; "firewalld"] CMD_TIMEOUT ;;
    ret (String.eqb out "active")
  else ret false.

Definition probe_ufw : M bool :=
  p <- which "ufw" ;;
  if path_truthy p then
    out <- cmd ["ufw"; "status"] CMD_TIMEOUT ;;
    ret (Py.contains "Status: active" out)
  else ret false.

Definition detect_firewall : M (option string) :=
  fwd <- probe_firewalld ;;
  if fwd then ret (Some "firewalld")
  else
    ufw <- probe_ufw ;;
    if ufw then ret (Some "ufw") else ret None.

(** [action in ('start', 'restart')]. *)
Definition expects_active (action : string) : bool :=
  String.eqb action "start" || String.eqb action "restart".

(** The three [break] tests of the poll loop, in the order of the source. *)
Definition poll_break (expect_active : bool) (state : string)
    (cli_online : bool) : bool :=
  if expect_active && String.eqb state "active" && cli_online then true
  else if String.eqb state "failed" then true
  else if negb expect_active
          && (String.eqb state "inactive" || String.eqb state "failed")
       then true
  else false.

(** [for _ in range(n)]: sleep, query, test. *)
Fixpoint poll (has_systemd : option bool) (expect_active : bool) (n : nat)
    : M unit :=
  match n with
  | O => ret tt
  | S n' =>
      sleep 500 ;;;
      info <- get_service_info has_systemd ;;
      let '(state, _, cli_online) := info in
      if poll_break expect_active state cli_online then ret tt
      else poll has_systemd expect_active n'
  end.

(** The closure [work] of [service_action]. *)
Definition service_work (has_systemd : option bool) (action : string)
    : M unit :=
  let expect_active := expects_active action in
  cmd ["systemctl"; action; "zerotier-one"] 15 ;;;
  poll has_systemd expect_active 10 ;;;
  idle_add RefreshAsync.

(** The closure of [join_network] and of [leave_network]. *)
Definition join_work (nid : string) : M unit :=
  cmd ["zerotier-cli"; "join"; nid] CMD_TIMEOUT ;;; sleep 200.

Definition leave_work (nid : string) : M unit :=
  cmd ["zerotier-cli"; "leave"; nid] CMD_TIMEOUT ;;; sleep 200.

End Worker.

(* ================================================================== *)
(** * The dispatcher script *)
(* ================================================================== *)

(** The file at [DISPATCHER_PATH]: its text and its permission bits. *)
Record File : Type := {
  content : string;
  mode : Z
}.

(** The disk, as far as the program sees it: the dispatcher file or none. *)
Definition Disk : Type := option File.

(** The system calls made on the dispatcher file. *)
Inductive FsOp : Type :=
| OpRemove        (* os.remove *)
| OpOpenRead      (* open(path) *)
| OpOpenWrite     (* open(path, 'w') *)
| OpWrite         (* f.write *)
| OpChmod.        (* os.chmod *)

Section Dispatcher.

(** The calls the system refuses (a permission problem, a full disk): a
    refused call raises an [OSError] and changes nothing. *)
Variable denied : FsOp -> bool.

(** The mode a newly created file gets (0o666 masked by the umask). *)
Variable create_mode : Z.

Definition os_remove : St Disk unit :=
  fun d =>
    if denied OpRemove then (Raise PermissionError, d)
    else match d with
         | None => (Raise FileNotFoundError, d)
         | Some _ => (Ok tt, None)
         end.

(** [open(path, 'w')] creates the file or empties it. *)
Definition open_w : St Disk unit :=
  fun d =>
    if denied OpOpenWrite then (Raise PermissionError, d)
    else match d with
         | None => (Ok tt, Some {| content := ""; mode := create_mode |})
         | Some f => (Ok tt, Some {| content := ""; mode := mode f |})
         end.

Definition file_write (text : string) : St Disk unit :=
  fun d =>
    if denied OpWrite then (Raise OSError, d)
    else match d with
         | None => (Raise OSError, d)
         | Some f =>
             (Ok tt, Some {| content := content f ++ text; mode := mode f |})
         end.

Definition os_chmod (m : Z) : St Disk unit :=
  fun d =>
    if denied OpChmod then (Raise PermissionError, d)
    else match d with
         | None => (Raise FileNotFoundError, d)
         | Some f => (Ok tt, Some {| content := content f; mode := m |})
         end.

(** [open(path).read()]. *)
Definition open_read : St Disk string :=
  fun d =>
    if denied OpOpenRead then (Raise PermissionError, d)
    else match d with
         | None => (Raise FileNotFoundError, d)
         | Some f => (Ok (content f), d)
         end.

(** Truth value of the [fw] argument: [None] and the empty string are
    false. *)
Definition fw_truthy (fw : option string) : bool :=
  match fw with Some s => Py.truthy s | None => false end.

Definition fw_is (fw : option string) (kind : string) : bool :=
  match fw with Some s => String.eqb s kind | None => false end.

Definition header_lines : list string :=
  [ "#!/bin/bash";
    "# Auto-generated by zerotier-gui";
    "IFACE=" ++ Py.dq ++ "$1" ++ Py.dq;
    "ACTION=" ++ Py.dq ++ "$2" ++ Py.dq;
    "# Validate interface name";
    "[[ ! " ++ Py.dq ++ "$IFACE" ++ Py.dq ++ " =~ ^zt[a-z0-9]+$ || "
      ++ Py.dq ++ "$ACTION" ++ Py.dq ++ " != " ++ Py.dq ++ "up" ++ Py.dq
      ++ " ]] && exit 0" ].

Definition route_line : string :=
  "ip route replace 255.255.255.255/32 dev " ++ Py.dq ++ "$IFACE" ++ Py.dq
    ++ " 2>/dev/null || true".

Definition firewalld_line : string :=
  "firewall-cmd --zone=trusted --add-interface=" ++ Py.dq ++ "$IFACE"
    ++ Py.dq ++ " 2>/dev/null || true".

Definition ufw_lines : list string :=
  [ "ufw allow in on zt+ 2>/dev/null || true";
    "ufw allow out on zt+ 2>/dev/null || true" ].

(** The list [lines] of [write_dispatcher] after its appends. *)
Definition script_lines (route : bool) (fw : option string) : list string :=
  (header_lines
   ++ (if route then [route_line] else [])
   ++ (if fw_is fw "firewalld" then [firewalld_line]
       else if fw_is fw "ufw" then ufw_lines
       else []))%list.

Definition script_text (route : bool) (fw : option string) : string :=
  Py.join (String newline "") (script_lines route fw) ++ String newline "".

(** [write_dispatcher(route, fw)]. *)
Definition write_dispatcher (route : bool) (fw : option string)
    : St Disk unit :=
  if negb route && negb (fw_truthy fw) then
    try_except os_remove [OSError] (ret tt)
  else
    try_except
      (open_w ;;; file_write (script_text route fw) ;;; os_chmod 493)
      [OSError]
      (ret tt).

(** [read_dispatcher()]: [(route_enabled, fw_enabled)]. *)
Definition read_dispatcher : St Disk (bool * bool) :=
  try_except
    (text <- open_read ;;
     ret (Py.contains "255.255.255.255" text,
          Py.contains "firewall-cmd" text || Py.contains "ufw allow" text))
    [OSError; FileNotFoundError]
    (ret (false, false)).

End Dispatcher.

(* ================================================================== *)
(** * The application object and the code of the main thread *)
(* ================================================================== *)

(** The closures handed to [_run_async], one constructor per site. *)
Inductive Closure : Type :=
| RouteWork (active fw_active : bool)        (* work of on_route_toggled *)
| FirewallWork (active route_active : bool)  (* work of on_firewall_toggled *)
| EnableWork (action : string)               (* systemctl enable / disable *)
| LeaveWork (nid : string)                   (* zerotier-cli leave *)
| JoinWork (nid : string).                   (* zerotier-cli join *)

(** What is submitted to the thread pool [self._exec]. *)
Inductive Task : Type :=
| AsyncTask (fn : Closure)     (* lambda: (fn(), idle_add(refresh_async)) *)
| ServiceTask (action : string).             (* work of service_action *)

(** The widgets the code below touches: a flag is the widget's
    sensitivity unless its name says otherwise. *)
Record Widgets : Type := {
  status : string;                 (* markup of the status label *)
  spinner_visible : bool;
  spinner_spinning : bool;
  service_btns : list bool;
  enable_check : bool;
  join_btn : bool;
  join_entry : bool;
  join_entry_text : string;
  route_check : bool;
  firewall_check : bool
}.

Record App : Type := {
  has_systemd : option bool;       (* None = not yet checked *)
  has_nm : option bool;
  fw_type : option string;
  busy : bool;
  pool : list Task;                (* submissions, oldest first *)
  ui : Widgets
}.

(** The bullet of the status dot, U+25CF, in UTF-8. *)
Definition bullet : string :=
  String (ascii_of_nat 226) (String (ascii_of_nat 151)
    (String (ascii_of_nat 143) "")).

(** [STATUS_COLORS.get(status, "#e74c3c")]. *)
Definition status_color (st : string) : string :=
  if String.eqb st "OK" then "#2ecc71"
  else if String.eqb st "WARN" then "#f39c12"
  else if String.eqb st "ACCESS_DENIED" then "#f39c12"
  else if String.eqb st "REQUESTING_CONFIGURATION" then "#f39c12"
  else "#e74c3c".

Definition dot (st : string) : string :=
  "<span foreground=" ++ Py.dq ++ status_color st ++ Py.dq ++ ">"
    ++ bullet ++ "</span>".

(** The markup [set_status(status, text)] gives the status label. *)
Definition status_markup (st text : string) : string :=
  dot st ++ " <b>Status:</b> " ++ text.

Definition is_some {A} (o : option A) : bool :=
  match o with Some _ => true | None => false end.

Definition text_truthy (t : option string) : bool :=
  match t with Some s => Py.truthy s | None => false end.

(** [set_busy(busy, status_text=None)]. *)
Definition set_busy (b : bool) (status_text : option string) (a : App) : App :=
  let sensitive := negb b in
  let w := ui a in
  {| has_systemd := has_systemd a;
     has_nm := has_nm a;
     fw_type := fw_type a;
     busy := b;
     pool := pool a;
     ui := {|
       status :=
         match status_text with
         | Some t => if b && Py.truthy t then status_markup "WARN" t
                     else status w
         | None => status w
         end;
       spinner_visible := b;
       spinner_spinning := b;
       service_btns :=
         match has_systemd a with
         | Some hs => map (fun _ => sensitive && hs) (service_btns w)
         | None => service_btns w
         end;
       enable_check :=
         match has_systemd a with
         | Some hs => sensitive && hs
         | None => enable_check w
         end;
       join_btn := sensitive;
       join_entry := sensitive;
       join_entry_text := join_entry_text w;
       route_check :=
         match has_nm a with
         | Some nm => sensitive && nm
         | None => route_check w
         end;
       firewall_check :=
         if is_some (fw_type a) || is_some (has_systemd a)
         then sensitive && is_some (fw_type a)
         else firewall_check w
     |}
  |}.

(** [self._exec.submit(task)]. *)
Definition submit (t : Task) (a : App) : App :=
  {| has_systemd := has_systemd a;
     has_nm := has_nm a;
     fw_type := fw_type a;
     busy := busy a;
     pool := (pool a ++ [t])%list;
     ui := ui a |}.

(** [_run_async(status_text, fn)]: the returned flag and the new state. *)
Definition _run_async (status_text : string) (fn : Closure) (a : App)
    : bool * App :=
  if busy a then (false, a)
  else (true, submit (AsyncTask fn) (set_busy true (Some status_text) a)).

(** [service_action(action)]. *)
Definition service_action (action : string) (a : App) : App :=
  if busy a || negb (flag_truthy (has_systemd a)) then a
  else submit (ServiceTask action)
              (set_busy true (Some (action ++ "ing...")) a).

(** The validity test of [join_network]: [ValueError] makes it false. *)
Definition valid_network_id (nid : string) : bool :=
  if String.length nid =? 16 then
    match Py.int16 nid with
    | Some v => (0 <=? v)%Z
    | None => false
    end
  else false.

(** [entry.set_text(text)] on the join entry. *)
Definition set_join_text (text : string) (a : App) : App :=
  let w := ui a in
  {| has_systemd := has_systemd a;
     has_nm := has_nm a;
     fw_type := fw_type a;
     busy := busy a;
     pool := pool a;
     ui := {|
       status := status w;
       spinner_visible := spinner_visible w;
       spinner_spinning := spinner_spinning w;
       service_btns := service_btns w;
       enable_check := enable_check w;
       join_btn := join_btn w;
       join_entry := join_entry w;
       join_entry_text := text;
       route_check := route_check w;
       firewall_check := firewall_check w
     |}
  |}.

(** [join_network(entry)], the entry being [self.join_entry]. *)
Definition join_network (a : App) : App :=
  if busy a then a
  else
    let nid := Py.strip (join_entry_text (ui a)) in
    if valid_network_id nid then
      let '(started, a') := _run_async "joining network..." (JoinWork nid) a in
      if started then set_join_text "" a' else a'
    else a.

(** ** The two lists rebuilt by [_apply_refresh] *)

(** A row of the network list: the dot and its tooltip, the name, the
    address, the text the copy button puts on the clipboard (no button for
    an empty address) and the arguments bound to the leave button. *)
Record NetworkRow : Type := {
  net_dot : string;
  net_tooltip : string;
  net_name : string;
  net_ip : string;
  net_copy : option string;
  net_leave : string * string
}.

Record PeerRow : Type := {
  peer_dot : string;
  peer_address : string;
  peer_latency : string
}.

(** The children of a [Gtk.Box] of [_apply_refresh]. *)
Inductive Child : Type :=
| NetworkChild (r : NetworkRow)
| PeerChild (r : PeerRow)
| LabelChild (text : string).

Definition network_row (p : list string) : NetworkRow :=
  let ip := if 8 <? List.length p then nth 8 p "" else "" in
  {| net_dot := dot (nth 5 p "");
     net_tooltip := nth 5 p "";
     net_name := nth 3 p "";
     net_ip := ip;
     net_copy :=
       if Py.truthy ip then Some (nth 0 (Py.split_on "/"%char ip) "")
       else None;
     net_leave := (nth 2 p "", nth 3 p "") |}.

(** The body of the loop over the network lines, [box] being the
    children of [self.nets] so far; a [ValueError] is passed over. *)
Definition network_line (box : list Child) (line : string) : list Child :=
  let p := Py.split line in
  if 8 <=? List.length p then
    if String.length (nth 2 p "") =? 16 then
      match Py.int16 (nth 2 p "") with
      | Some v =>
          if (0 <=? v)%Z then (box ++ [NetworkChild (network_row p)])%list
          else box
      | None => box
      end
    else box
  else box.

(** [self.nets] after the network part of [_apply_refresh]. *)
Definition rebuild_networks (cli_online : bool) (networks : string)
    : list Child :=
  let box :=
    if cli_online
    then fold_left network_line (tl (Py.split_on newline networks)) []
    else [] in
  match box with
  | [] => [LabelChild "No networks"]
  | _ => box
  end.

Definition peer_row (p : list string) : PeerRow :=
  {| peer_dot := dot "OK";
     peer_address := Py.take 10 (nth 0 p "") ++ "...";
     peer_latency := nth 3 p "" ++ "ms" |}.

Definition peer_line (box : list Child) (line : string) : list Child :=
  let p := Py.split line in
  if (6 <=? List.length p)
     && String.eqb (nth 2 p "") "LEAF"
     && negb (String.eqb (nth 3 p "") "-1")
  then (box ++ [PeerChild (peer_row p)])%list
  else box.

(** [self.peers] after the peer part of [_apply_refresh]. *)
Definition rebuild_peers (cli_online : bool) (peers : string) : list Child :=
  let box :=
    if cli_online
    then fold_left peer_line (tl (Py.split_on newline peers)) []
    else [] in
  match box with
  | [] => [LabelChild "No peers connected"]
  | _ => box
  end.

(* ================================================================== *)
(** * Concrete states and environments for the examples *)
(* ================================================================== *)

(** The application once capabilities are known and a refresh has been
    applied: nothing in flight, every control usable. *)
Definition app_idle : App :=
  {| has_systemd := Some true;
     has_nm := Some true;
     fw_type := Some "firewalld";
     busy := false;
     pool := [];
     ui := {|
       status := status_markup "OK" "active";
       spinner_visible := false;
       spinner_spinning := false;
       service_btns := [true; true; true];
       enable_check := true;
       join_btn := true;
       join_entry := true;
       join_entry_text := "";
       route_check := true;
       firewall_check := true
     |}
  |}.

(** A line break as a string. *)
Definition nl : string := String newline "".

(** A prefixed literal: 16 characters, one of them the letter x. *)
Definition prefixed_id : string := "0x00000000000000".

(** The header of [zerotier-cli listnetworks] and one row whose third
    token is [prefixed_id]. *)
Definition networks_header : string :=
  "200 listnetworks <nwid> <name> <mac> <status> <type> <dev> "
  ++ "<ZT assigned ips>".

Definition networks_prefixed : string :=
  networks_header ++ nl
  ++ "200 listnetworks 0x00000000000000 lan 02:00:00:00:00:01 OK PRIVATE "
  ++ "zt0 10.0.0.2/24".

(** An operating system in which every command exits with status 0 and
    prints nothing, and no tool is found on the path. *)
Definition env_silent : Env :=
  {| run_outcome := fun _ _ _ => Ok {| returncode := 0; stdout := "" |};
     which_outcome := fun _ _ => None |}.

(** The application as [on_activate] leaves it: capabilities not yet
    checked, the loading status shown, the service controls disabled. *)
Definition app_loading : App :=
  {| has_systemd := None;
     has_nm := None;
     fw_type := None;
     busy := false;
     pool := [];
     ui := {|
       status := status_markup "WARN" "loading...";
       spinner_visible := true;
       spinner_spinning := true;
       service_btns := [false; false; false];
       enable_check := false;
       join_btn := true;
       join_entry := true;
       join_entry_text := "";
       route_check := false;
       firewall_check := false
     |}
  |}.

(** An operating system in which [systemctl is-active] finds the unit
    stopped: it prints the state and exits with status 3. *)
Definition env_unit_inactive : Env :=
  {| run_outcome := fun _ _ _ =>
       Ok {| returncode := 3; stdout := "inactive" ++ nl |};
     which_outcome := fun _ _ => None |}.

(** [subprocess.run] on an empty argument vector raises [IndexError]. *)
Definition env_empty_argv : Env :=
  {| run_outcome := fun _ argv _ =>
       match argv with
       | [] => Raise IndexError
       | _ => Ok {| returncode := 0; stdout := "" |}
       end;
     which_outcome := fun _ _ => None |}.

(** A system that refuses no call on the dispatcher file, the mode of a
    file created under the usual umask (0o644), and a script left by an
    earlier session. *)
Definition no_denial : FsOp -> bool := fun _ => false.

Definition default_mode : Z := 420.

Definition disk_old_script : Disk :=
  Some {| content := script_text true (Some "ufw"); mode := 493 |}.

(** A system that refuses to remove the file. *)
Definition remove_denied : FsOp -> bool :=
  fun op => match op with OpRemove => true | _ => false end.

(* ================================================================== *)
(** * Vocabulary of the statements about worker code *)
(* ================================================================== *)

(** An operating system whose commands raise nothing but what [cmd]
    absorbs: timeouts and [OSError]s. *)
Definition well_behaved (env : Env) : Prop :=
  forall h argv timeout e,
    run_outcome env h argv timeout = Raise e ->
    caught e [TimeoutExpired; FileNotFoundError; OSError] = true.

(** The effects of one [get_service_info] and of one turn of the poll
    loop, and those of [k] turns. *)
Definition query_events (has_systemd : option bool) : list Event :=
  EvRun ["zerotier-cli"; "info"] CMD_TIMEOUT
  :: (if flag_truthy has_systemd
      then [EvRun ["systemctl"; "show"; "zerotier-one";
                   "--property=ActiveState,UnitFileState"] CMD_TIMEOUT]
      else []).

Definition poll_events (has_systemd : option bool) : list Event :=
  EvSleep 500 :: query_events has_systemd.

Definition rounds (has_systemd : option bool) (k : nat) : list Event :=
  concat (repeat (poll_events has_systemd) k).

(** What the query of turn [j] (counted from 0) of a poll loop started at
    history [h] answers. *)
Definition observed (env : Env) (has_systemd : option bool) (h : History)
    (j : nat) : Res (string * bool * bool) :=
  fst (get_service_info env has_systemd
         (h ++ rounds has_systemd j ++ [EvSleep 500])%list).

(** The convergence predicates in the words of the specification: for
    start and restart the state is active and the daemon is reachable; for
    any action the state is failed; for the other actions (stop) the state
    is inactive or failed. *)
Definition converged (action state : string) (reachable : bool) : Prop :=
  ((action = "start" \/ action = "restart")
   /\ state = "active" /\ reachable = true)
  \/ state = "failed"
  \/ (~ (action = "start" \/ action = "restart")
      /\ (state = "inactive" \/ state = "failed")).

(** A scheduled refresh. *)
Definition is_refresh (ev : Event) : bool :=
  match ev with EvIdleAdd RefreshAsync => true | _ => false end.

Definition is_sleep (ev : Event) : bool :=
  match ev with EvSleep _ => true | _ => false end.

(** The probes of [detect_firewall] in the words of the specification:
    the tool is present and the unit reports active; the tool is present
    and its status output holds the active status line. *)
Definition firewalld_detected (env : Env) (h : History) : Prop :=
  path_truthy (which_outcome env h "firewall-cmd") = true
  /\ fst (cmd env ["systemctl"; "is-active"; "firewalld"] CMD_TIMEOUT
            (h ++ [EvWhich "firewall-cmd"])%list) = Ok "active".

Definition ufw_detected (env : Env) (h : History) : Prop :=
  path_truthy (which_outcome env h "ufw") = true
  /\ exists out,
       fst (cmd env ["ufw"; "status"] CMD_TIMEOUT
              (h ++ [EvWhich "ufw"])%list) = Ok out
       /\ Py.contains "Status: active" out = true.

(** A unit that is being stopped: [systemctl show] reports it
    deactivating during the first two polls and inactive from the third;
    the daemon answers [zerotier-cli info] all along. *)
Definition env_stopping : Env :=
  {| run_outcome := fun h argv _ =>
       if String.eqb (nth 0 argv "") "zerotier-cli" then
         Ok {| returncode := 0;
               stdout := "200 info 1a2b3c4d5e 1.12.2 ONLINE" ++ nl |}
       else if String.eqb (nth 1 argv "") "show" then
         Ok {| returncode := 0;
               stdout :=
                 (if 3 <=? List.length (filter is_sleep h)
                  then "ActiveState=inactive"
                  else "ActiveState=deactivating")
                 ++ nl ++ "UnitFileState=enabled" ++ nl |}
       else Ok {| returncode := 0; stdout := "" |};
     which_outcome := fun _ _ => None |}.

(** A host with ufw alone, active; and a host with both firewalls, each
    active. *)
Definition env_ufw_only : Env :=
  {| run_outcome := fun _ argv _ =>
       if String.eqb (nth 0 argv "") "ufw" then
         Ok {| returncode := 0;
               stdout := "Status: active" ++ nl ++ "To Action From" ++ nl |}
       else Ok {| returncode := 3; stdout := "inactive" ++ nl |};
     which_outcome := fun _ name =>
       if String.eqb name "ufw" then Some "/usr/sbin/ufw" else None |}.

Definition env_both_firewalls : Env :=
  {| run_outcome := fun _ argv _ =>
       if String.eqb (nth 0 argv "") "ufw" then
         Ok {| returncode := 0; stdout := "Status: active" ++ nl |}
       else Ok {| returncode := 0; stdout := "active" ++ nl |};
     which_outcome := fun _ name => Some ("/usr/bin/" ++ name) |}.

(* ================================================================== *)
(** * The code around the core: start-up, handlers, refresh *)
(* ================================================================== *)

(** More builtins on strings. *)
Module Str.

(** [s[n:]]. *)
Fixpoint drop (n : nat) (s : string) : string :=
  match n, s with
  | S n', String _ r => drop n' r
  | _, _ => s
  end.

(** [s.endswith(suffix)]. *)
Definition endswith (s suffix : string) : bool :=
  (String.length suffix <=? String.length s)
  && String.eqb (drop (String.length s - String.length suffix) s) suffix.

(** [c in chars]. *)
Fixpoint mem (c : ascii) (chars : string) : bool :=
  match chars with
  | EmptyString => false
  | String x r => Ascii.eqb c x || mem c r
  end.

(** [s.strip(chars)]: the leading and the trailing characters that occur
    in [chars] are removed. *)
Fixpoint lstrip_chars (chars s : string) : string :=
  match s with
  | EmptyString => EmptyString
  | String c r => if mem c chars then lstrip_chars chars r else s
  end.

Fixpoint rstrip_chars (chars s : string) : string :=
  match s with
  | EmptyString => EmptyString
  | String c r =>
      match rstrip_chars chars r with
      | EmptyString => if mem c chars then EmptyString else String c EmptyString
      | r' => String c r'
      end
  end.

Definition strip_chars (chars s : string) : string :=
  rstrip_chars chars (lstrip_chars chars s).




End Str.

(** ** Start-up: arguments, privilege escalation, environment *)

Definition VERSION : string := "1.0.0".

Definition ALLOWED_ENV : list string :=
  ["DISPLAY"; "WAYLAND_DISPLAY"; "USER_HOME";
   "GTK_A11Y"; "GTK_USE_PORTAL"; "GTK_THEME"].

(** [s in (a, b, ...)] and [s in ALLOWED_ENV]. *)
Definition in_list (s : string) (l : list string) : bool :=
  existsb (String.eqb s) l.

Definition help_text : string :=
  "ZeroTier GUI v" ++ VERSION ++ nl ++ nl
  ++ "Usage: zerotier-gui [OPTIONS]" ++ nl ++ nl
  ++ "Options:" ++ nl
  ++ "  -h, --help      Show this help message" ++ nl
  ++ "  -v, --version   Show version" ++ nl ++ nl
  ++ "Requires root privileges (prompts via polkit) and zerotier-cli in PATH.".

(** How the loop over [sys.argv[1:]] ends. *)
Inductive Startup : Type :=
| ExitPrinted (text : string)     (* print(text); sys.exit(0) *)
| ExitError (message : string)    (* sys.exit(message): status 1 *)
| Continue.

Fixpoint parse_args (args : list string) : Startup :=
  match args with
  | [] => Continue
  | arg :: rest =>
      if in_list arg ["-h"; "--help"] then ExitPrinted help_text
      else if in_list arg ["-v"; "--version"] then
        ExitPrinted ("zerotier-gui " ++ VERSION)
      else if Py.startswith arg "-" && negb (Py.contains "=" arg) then
        ExitError ("Error: Unknown option '" ++ arg
                   ++ "'. Use --help for usage.")
      else parse_args rest
  end.

(** [os.environ]. *)
Definition Environ : Type := string -> option string.

Definition setenv (environ : Environ) (key val : string) : Environ :=
  fun k => if String.eqb k key then Some val else environ k.

(** [environ.get(key, '')]. *)
Definition getenv (environ : Environ) (key : string) : string :=
  match environ key with Some v => v | None => "" end.

(** One turn of the loop that restores the variables handed through
    pkexec, and the loop. *)
Definition restore_arg (environ : Environ) (a : string) : Environ :=
  if Py.contains "=" a then
    let kv := Py.split1 "="%char a in
    if in_list (nth 0 kv "") ALLOWED_ENV
    then setenv environ (nth 0 kv "") (nth 1 kv "")
    else environ
  else environ.

Definition restore_env (args : list string) (environ : Environ) : Environ :=
  fold_left restore_arg args environ.

Section Startup.

Variable env : Env.

(** [gsettings_get(key)]. *)
Definition gsettings_get (key : string) : M string :=
  try_except
    (r <- subprocess_run env
            ["gsettings"; "get"; "org.gnome.desktop.interface"; key]
            CMD_TIMEOUT ;;
     ret (if (returncode r =? 0)%Z
          then Str.strip_chars "'" (Py.strip (stdout r))
          else ""))
    [TimeoutExpired; FileNotFoundError; OSError]
    (ret "").

(** The theme handed on: the dark variant when the colour scheme asks for
    dark and the theme's name does not end in it already. *)
Definition themed (theme scheme : string) : string :=
  if Py.contains "dark" (Py.lower scheme)
     && negb (Str.endswith (Py.lower theme) "-dark")
  then theme ++ "-Dark" else theme.

(** The list [env] built before [os.execvp('pkexec', ...)], [home] being
    what [os.path.expanduser('~')] gives. *)
Definition pkexec_env (home : string) (environ : Environ)
    : M (list string) :=
  let env0 := ["USER_HOME=" ++ home; "GTK_A11Y=none"; "GTK_USE_PORTAL=0"] in
  let env1 :=
    match environ "DISPLAY" with
    | Some d => (env0 ++ [("DISPLAY=" ++ d)%string])%list
    | None => env0
    end in
  let xdg_runtime := getenv environ "XDG_RUNTIME_DIR" in
  let wayland := getenv environ "WAYLAND_DISPLAY" in
  let env2 :=
    if Py.truthy xdg_runtime && Py.truthy wayland then
      (env1 ++ [("WAYLAND_DISPLAY="
                 ++ (if Py.startswith wayland "/" then wayland
                     else xdg_runtime ++ "/" ++ wayland))%string])%list
    else env1 in
  theme <- gsettings_get "gtk-theme" ;;
  if Py.truthy theme then
    scheme <- gsettings_get "color-scheme" ;;
    ret (env2 ++ [("GTK_THEME=" ++ themed theme scheme)%string])%list
  else ret env2.

End Startup.

(** ** The closures run on the pool *)

(** Worker code that also writes the dispatcher file threads the history
    and the disk. *)
Definition World : Type := (History * Disk)%type.

Definition on_history {A} (m : M A) : St World A :=
  fun w => let '(r, h') := m (fst w) in (r, (h', snd w)).

Definition on_disk {A} (m : St Disk A) : St World A :=
  fun w => let '(r, d') := m (snd w) in (r, (fst w, d')).

(** [for x in l: body(x)]. *)
Fixpoint for_each {S A} (l : list A) (body : A -> St S unit) : St S unit :=
  match l with
  | [] => ret tt
  | x :: rest => body x ;;; for_each rest body
  end.

Section Tasks.

Variable env : Env.

(** What [os.listdir('/sys/class/net')] gives. *)
Variable listdir : History -> Res (list string).

Variable denied : FsOp -> bool.
Variable create_mode : Z.

(** [get_zt_ifaces()]. *)
Definition get_zt_ifaces : M (list string) :=
  try_except
    (fun h =>
       (match listdir h with
        | Ok l => Ok (filter (fun e => Py.startswith e "zt") l)
        | Raise e => Raise e
        end, h))
    [OSError]
    (ret []).

(** The closure [work] of [on_route_toggled]; [fw_type] is read from the
    application when the closure runs. *)
Definition route_work (fw_type : option string) (active fw_active : bool)
    : St World unit :=
  on_disk (write_dispatcher denied create_mode active
             (if fw_active then fw_type else None)) ;;;
  let action := if active then "add" else "del" in
  ifaces <- on_history get_zt_ifaces ;;
  for_each ifaces
    (fun iface =>
       on_history (cmd env ["ip"; "route"; action; "255.255.255.255/32";
                            "dev"; iface] CMD_TIMEOUT) ;;;
       ret tt).

(** The closure [work] of [on_firewall_toggled]. *)
Definition firewall_work (fw_type : option string)
    (active route_active : bool) : St World unit :=
  on_disk (write_dispatcher denied create_mode route_active
             (if active then fw_type else None)) ;;;
  if fw_is fw_type "firewalld" then
    ifaces <- on_history get_zt_ifaces ;;
    for_each ifaces
      (fun iface =>
         let action :=
           if active then "--add-interface" else "--remove-interface" in
         on_history (cmd env ["firewall-cmd"; "--zone=trusted";
                              action ++ "=" ++ iface] CMD_TIMEOUT) ;;;
         ret tt)
  else if fw_is fw_type "ufw" then
    if active then
      on_history (cmd env ["ufw"; "allow"; "in"; "on"; "zt+"] CMD_TIMEOUT) ;;;
      on_history (cmd env ["ufw"; "allow"; "out"; "on"; "zt+"] CMD_TIMEOUT) ;;;
      ret tt
    else
      on_history (cmd env ["ufw"; "delete"; "allow"; "in"; "on"; "zt+"]
                    CMD_TIMEOUT) ;;;
      on_history (cmd env ["ufw"; "delete"; "allow"; "out"; "on"; "zt+"]
                    CMD_TIMEOUT) ;;;
      ret tt
  else ret tt.

(** The closure of [on_enable_toggled]. *)
Definition enable_work (action : string) : M unit :=
  cmd env ["systemctl"; action; "zerotier-one"] CMD_TIMEOUT ;;; ret tt.

Definition run_closure (fw_type : option string) (fn : Closure)
    : St World unit :=
  match fn with
  | RouteWork active fw_active => route_work fw_type active fw_active
  | FirewallWork active route_active =>
      firewall_work fw_type active route_active
  | EnableWork action => on_history (enable_work action)
  | LeaveWork nid => on_history (leave_work env nid)
  | JoinWork nid => on_history (join_work env nid)
  end.

(** What a pool thread does with a submitted task, the capabilities being
    those of the application at that time. *)
Definition run_task (has_systemd : option bool) (fw_type : option string)
    (t : Task) : St World unit :=
  match t with
  | AsyncTask fn =>
      run_closure fw_type fn ;;; on_history (idle_add RefreshAsync)
  | ServiceTask action => on_history (service_work env has_systemd action)
  end.

(** [_init_capabilities], the three probes made before [apply] is handed
    to the main thread: [(has_systemd, has_nm, fw_type)]. *)
Definition init_probes : M (bool * bool * option string) :=
  unit_file <- cmd env ["systemctl"; "cat"; "zerotier-one.service"]
                 CMD_TIMEOUT ;;
  nm <- cmd env ["systemctl"; "is-active"; "NetworkManager"] CMD_TIMEOUT ;;
  fw <- detect_firewall env ;;
  ret (negb (String.eqb unit_file ""), String.eqb nm "active", fw).

End Tasks.

(** A listing that raises nothing but an [OSError]. *)
Definition listdir_ok (listdir : History -> Res (list string)) : Prop :=
  forall h e, listdir h = Raise e -> caught e [OSError] = true.

(** ** The handlers of the main thread *)

(** [on_route_toggled(check)], [active] and [fw_active] being the states of
    the two check boxes. *)
Definition on_route_toggled (active fw_active : bool) (a : App) : App :=
  if busy a then a
  else snd (_run_async "updating route..." (RouteWork active fw_active) a).

Definition on_firewall_toggled (active route_active : bool) (a : App) : App :=
  if busy a then a
  else snd (_run_async "updating firewall..."
              (FirewallWork active route_active) a).

Definition on_enable_toggled (active : bool) (a : App) : App :=
  if busy a || negb (flag_truthy (has_systemd a)) then a
  else snd (_run_async "updating autostart..."
              (EnableWork (if active then "enable" else "disable")) a).

(** [leave_network(nid, name)]: the question put to the user, if any, and
    what the answer does. *)
Definition leave_network (nid name : string) (a : App) : option string :=
  if busy a then None else Some ("Leave " ++ name ++ "?").

Definition leave_on_response (nid : string) (yes : bool) (a : App) : App :=
  if yes then snd (_run_async "leaving network..." (LeaveWork nid) a)
  else a.

(** The window: the application, the refresh workers submitted to the
    pool so far, the state of the autostart check box, the two lists. *)
Record Window : Type := {
  w_app : App;
  w_refresh_workers : nat;
  w_enable_active : bool;
  w_nets : list Child;
  w_peers : list Child
}.

Definition with_app (a : App) (w : Window) : Window :=
  {| w_app := a;
     w_refresh_workers := w_refresh_workers w;
     w_enable_active := w_enable_active w;
     w_nets := w_nets w;
     w_peers := w_peers w |}.

(** [refresh_async()]: one more worker on the pool. *)
Definition refresh_async (w : Window) : Window :=
  {| w_app := w_app w;
     w_refresh_workers := S (w_refresh_workers w);
     w_enable_active := w_enable_active w;
     w_nets := w_nets w;
     w_peers := w_peers w |}.

(** [_periodic_refresh()]. *)
Definition _periodic_refresh (w : Window) : Window :=
  if busy (w_app w) then w else refresh_async w.

(** The dictionary [data] gathered by a refresh worker. *)
Record RefreshData : Type := {
  rd_state : string;
  rd_cli_online : bool;
  rd_enabled : bool;
  rd_networks : string;
  rd_peers : string
}.

(** The status shown by [_apply_refresh]. *)
Definition refresh_status (has_systemd : option bool) (state : string)
    (cli_online : bool) : string :=
  match has_systemd with
  | Some false => status_markup "WARN" "service not found"
  | _ =>
      if String.eqb state "failed" then status_markup "OFFLINE" "failed"
      else if String.eqb state "active" && cli_online then
        status_markup "OK" "active"
      else if String.eqb state "active" then
        status_markup "WARN" "starting..."
      else if cli_online then status_markup "WARN" "active (unmanaged)"
      else status_markup "OFFLINE" "inactive"
  end.

(** [_apply_refresh(data)]. *)
Definition _apply_refresh (data : RefreshData) (w : Window) : Window :=
  let a := w_app w in
  let u := ui a in
  let cli_online := rd_cli_online data in
  {| w_app :=
       {| has_systemd := has_systemd a;
          has_nm := has_nm a;
          fw_type := fw_type a;
          busy := false;
          pool := pool a;
          ui := {|
            status := refresh_status (has_systemd a) (rd_state data) cli_online;
            spinner_visible := false;
            spinner_spinning := false;
            service_btns :=
              match has_systemd a with
              | Some hs => map (fun _ => hs) (service_btns u)
              | None => service_btns u
              end;
            enable_check :=
              match has_systemd a with
              | Some hs => hs
              | None => enable_check u
              end;
            join_btn := cli_online;
            join_entry := cli_online;
            join_entry_text := join_entry_text u;
            route_check :=
              match has_nm a with
              | Some nm => nm
              | None => route_check u
              end;
            firewall_check := is_some (fw_type a)
          |}
       |};
     w_refresh_workers := w_refresh_workers w;
     w_enable_active :=
       if flag_truthy (has_systemd a) then rd_enabled data
       else w_enable_active w;
     w_nets := rebuild_networks cli_online (rd_networks data);
     w_peers := rebuild_peers cli_online (rd_peers data) |}.

(** What can happen on the main thread between two refreshes. *)
Inductive UiEvent : Type :=
| RouteToggled (active fw_active : bool)
| FirewallToggled (active route_active : bool)
| EnableToggled (active : bool)
| ServiceClicked (action : string)
| LeaveAnswered (nid : string) (yes : bool)
| JoinActivated
| TimerTick.

Definition handle (w : Window) (ev : UiEvent) : Window :=
  match ev with
  | RouteToggled active fw_active =>
      with_app (on_route_toggled active fw_active (w_app w)) w
  | FirewallToggled active route_active =>
      with_app (on_firewall_toggled active route_active (w_app w)) w
  | EnableToggled active => with_app (on_enable_toggled active (w_app w)) w
  | ServiceClicked action => with_app (service_action action (w_app w)) w
  | LeaveAnswered nid yes => with_app (leave_on_response nid yes (w_app w)) w
  | JoinActivated => with_app (join_network (w_app w)) w
  | TimerTick => _periodic_refresh w
  end.


(** A host without [systemctl]: running it raises [FileNotFoundError];
    every other command prints nothing. *)
Definition env_no_systemctl : Env :=
  {| run_outcome := fun _ argv _ =>
       if String.eqb (nth 0 argv "") "systemctl"
       then Raise FileNotFoundError
       else Ok {| returncode := 0; stdout := "" |};
     which_outcome := fun _ _ => None |}.

(** A command that a decoding error ends: [subprocess.run] raises
    [ValueError]. *)
Definition env_undecodable : Env :=
  {| run_outcome := fun _ _ _ => Raise ValueError;
     which_outcome := fun _ _ => None |}.

(** Three interfaces, one of them of ZeroTier. *)
Definition listdir_example : History -> Res (list string) :=
  fun _ => Ok ["lo"; "eth0"; "ztabcdef12"].

(** Worker code that leaves the disk alone, and worker code that ends
    normally after effects among which there is no scheduled refresh. *)
Definition keeps_disk {A} (m : St World A) : Prop :=
  forall w, snd (snd (m w)) = snd w.

Definition quiet (m : St World unit) : Prop :=
  forall h d,
    exists evs d',
      m (h, d) = (Ok tt, ((h ++ evs)%list, d'))
      /\ filter is_refresh evs = [].

(** The names [get_zt_ifaces] keeps of a listing; none when the listing
    fails. *)
Definition zt_names (listing : Res (list string)) : list string :=
  match listing with
  | Ok l => filter (fun e => Py.startswith e "zt") l
  | Raise _ => []
  end.





(** ** The end of start-up and the life of the main thread *)

(** The closure [apply] of [_init_capabilities], run on the main thread
    with the three probed values; the tooltips it sets are not part of
    [Widgets]. *)
Definition init_apply (hs nm : bool) (fw : option string) (w : Window)
    : Window :=
  let a := w_app w in
  let u := ui a in
  refresh_async
    {| w_app :=
         {| has_systemd := Some hs;
            has_nm := Some nm;
            fw_type := fw;
            busy := busy a;
            pool := pool a;
            ui := {|
              status := status u;
              spinner_visible := spinner_visible u;
              spinner_spinning := spinner_spinning u;
              service_btns :=
                if hs then service_btns u
                else map (fun _ => false) (service_btns u);
              enable_check := if hs then enable_check u else false;
              join_btn := join_btn u;
              join_entry := join_entry u;
              join_entry_text := join_entry_text u;
              route_check := if nm then route_check u else false;
              firewall_check :=
                if text_truthy fw then firewall_check u else false
            |}
         |};
       w_refresh_workers := w_refresh_workers w;
       w_enable_active := w_enable_active w;
       w_nets := w_nets w;
       w_peers := w_peers w |}.

(** What the main loop dispatches once [apply] has run: a signal or the
    timer, or the data of a refresh worker. *)
Inductive MainEvent : Type :=
| Ui (ev : UiEvent)
| Refreshed (data : RefreshData).

Definition main_step (w : Window) (e : MainEvent) : Window :=
  match e with
  | Ui ev => handle w ev
  | Refreshed data => _apply_refresh data w
  end.

(** The capabilities are the probed ones and no control is sensitive
    whose capability is missing. *)
Definition capped (hs nm : bool) (fw : option string) (a : App) : Prop :=
  has_systemd a = Some hs /\ has_nm a = Some nm /\ fw_type a = fw
  /\ Forall (fun b => b = true -> hs = true) (service_btns (ui a))
  /\ (enable_check (ui a) = true -> hs = true)
  /\ (route_check (ui a) = true -> nm = true)
  /\ (firewall_check (ui a) = true -> is_some fw = true).

(* ================================================================== *)
(** * Properties *)
(* ================================================================== *)

(** ** Sanity checks of the Python builtins *)

Example int16_plain : Py.int16 "8056c2e21c000001" = Some 9247793161240051713%Z.
Proof. vm_compute. reflexivity. Qed.

Example int16_prefix : Py.int16 "0x_1f" = Some 31%Z.
Proof. reflexivity. Qed.

Example int16_bad_underscore : Py.int16 "1__f" = None.
Proof. reflexivity. Qed.

Example split_tokens : Py.split "  a b   c " = ["a"; "b"; "c"].
Proof. reflexivity. Qed.

Example split_lines :
  Py.split_on "010"%char ("a" ++ String "010"%char "") = ["a"; ""].
Proof. reflexivity. Qed.

(** ** Facts about [int(s, 16)] *)

(** What a hexadecimal digit is to the scanner of [int16]. *)
Lemma hex_digit_scanned (c : ascii) :
  Py.is_hex_digit c = true ->
  (Py.ord c <? 127) = true /\ Py.c_isspace c = false
  /\ Ascii.eqb c "_"%char = false
  /\ (Py.digit_value c <? 16)%Z = true /\ (0 <= Py.digit_value c)%Z.
Proof.
  destruct c as [[] [] [] [] [] [] [] []]; intro H; vm_compute in H;
    try discriminate H; vm_compute; repeat split; congruence.
Qed.

Lemma transform_all_hex (s : string) :
  Py.all_hex s = true -> Py.transform_decimal_and_space s = s.
Proof.
  induction s as [|c r IH]; simpl; intro H; [reflexivity|].
  apply andb_true_iff in H as [Hc Hr].
  destruct (hex_digit_scanned c Hc) as (-> & _).
  now rewrite IH.
Qed.

Lemma scan_all_hex (s : string) : forall acc n,
  Py.all_hex s = true -> (0 <= acc)%Z ->
  exists v, Py.scan_digits false acc n s = Some (v, n + String.length s, "")
            /\ (0 <= v)%Z.
Proof.
  induction s as [|c r IH]; simpl; intros acc n H Hacc.
  - exists acc. now rewrite Nat.add_0_r.
  - apply andb_true_iff in H as [Hc Hr].
    destruct (hex_digit_scanned c Hc) as (_ & _ & -> & -> & Hd).
    assert (Hacc' : (0 <= acc * 16 + Py.digit_value c)%Z) by lia.
    destruct (IH _ (S n) Hr Hacc') as (v & Hv & Hpos).
    exists v. split; [|exact Hpos].
    rewrite Hv. do 3 f_equal. lia.
Qed.

(** A non-empty string of hexadecimal digits is a base-16 literal with a
    value that is not negative. *)
Lemma int16_all_hex (s : string) :
  Py.all_hex s = true -> s <> "" ->
  exists v, Py.int16 s = Some v /\ (0 <= v)%Z.
Proof.
  intros H Hne. unfold Py.int16. rewrite (transform_all_hex s H).
  destruct (scan_all_hex s 0%Z 0 H (Z.le_refl 0)) as (v & Hv & Hpos).
  destruct s as [|c r]; [congruence|].
  assert (Hlen : (0 + String.length (String c r) =? 0) = false)
    by (apply Nat.eqb_neq; simpl; lia).
  pose proof H as H'. simpl in H'. apply andb_true_iff in H' as [Hc Hr].
  assert (Hskip : Py.skip_space (String c r) = String c r).
  { simpl. now destruct (hex_digit_scanned c Hc) as (_ & -> & _). }
  rewrite Hskip.
  exists v. split; [|exact Hpos].
  destruct r as [|x r'].
  - destruct c as [[] [] [] [] [] [] [] []]; vm_compute in Hc;
      try discriminate Hc; vm_compute in Hv |- *;
      injection Hv as <-; reflexivity.
  - simpl in Hr. apply andb_true_iff in Hr as [Hx Hr'].
    destruct c as [[] [] [] [] [] [] [] []]; vm_compute in Hc;
      try discriminate Hc;
      try (cbv iota beta; rewrite Hv, Hlen; cbn [Py.skip_space];
           now rewrite Z.mul_1_l).
    (* the first digit is 0: the second is no x, so there is no prefix *)
    destruct x as [[] [] [] [] [] [] [] []]; vm_compute in Hx;
      try discriminate Hx;
      cbv iota beta; simpl Ascii.eqb; cbv iota beta;
      simpl orb; cbv iota beta; rewrite Hv, Hlen; cbn [Py.skip_space];
      now rewrite Z.mul_1_l.
Qed.

(** The validity test lets every 16-digit hexadecimal identifier through,
    and nothing that is not 16 characters long. *)
Lemma valid_network_id_complete (nid : string) :
  String.length nid = 16 -> Py.all_hex nid = true ->
  valid_network_id nid = true.
Proof.
  intros Hlen Hhex. unfold valid_network_id. rewrite Hlen. simpl.
  destruct (int16_all_hex nid Hhex) as (v & -> & Hv).
  - intros ->. discriminate Hlen.
  - now apply Z.leb_le.
Qed.

Lemma valid_network_id_length (nid : string) :
  valid_network_id nid = true -> String.length nid = 16.
Proof.
  unfold valid_network_id.
  destruct (String.length nid =? 16) eqn:E; [|discriminate].
  intros _. now apply Nat.eqb_eq.
Qed.

(** ** The join validator *)

(** C2, at the input the code lets through: the text [0x00000000000000] is
    16 characters long and is not made of hexadecimal digits only (it holds
    an x), yet the validity test of [join_network] accepts it, the join
    closure is submitted for it, and that closure hands it to the executor
    as the argument of [zerotier-cli join]. *)
Theorem join_network_accepts_prefixed_literal :
  let a := set_join_text prefixed_id app_idle in
  String.length prefixed_id = 16
  /\ Py.all_hex prefixed_id = false
  /\ valid_network_id prefixed_id = true
  /\ pool (join_network a) = [AsyncTask (JoinWork prefixed_id)]
  /\ busy (join_network a) = true
  /\ snd (join_work env_silent prefixed_id [])
     = [EvRun ["zerotier-cli"; "join"; prefixed_id] CMD_TIMEOUT; EvSleep 200].
Proof.
  vm_compute. repeat split; reflexivity.
Qed.

(** Other texts of 16 characters that the test accepts: a sign, a minus
    sign before zeros, and an underscore between digits. *)
Example valid_network_id_other_literals :
  valid_network_id "+123456789012345" = true
  /\ valid_network_id "-000000000000000" = true
  /\ valid_network_id "1_23456789012345" = true
  /\ valid_network_id "-123456789012345" = false
  /\ valid_network_id "123456789012345g" = false.
Proof.
  vm_compute. repeat split; reflexivity.
Qed.

(** ** The record parsers *)

(** A turn of either loop appends to the box what it appends to an empty
    one, so a loop is the concatenation of its turns. *)
Lemma network_line_app (box : list Child) (line : string) :
  network_line box line = (box ++ network_line [] line)%list.
Proof.
  unfold network_line.
  destruct (8 <=? _); [|now rewrite app_nil_r].
  destruct (_ =? 16); [|now rewrite app_nil_r].
  destruct (Py.int16 _) as [v|]; [|now rewrite app_nil_r].
  destruct (0 <=? v)%Z; [reflexivity|now rewrite app_nil_r].
Qed.

Lemma peer_line_app (box : list Child) (line : string) :
  peer_line box line = (box ++ peer_line [] line)%list.
Proof.
  unfold peer_line. destruct (_ && _); [reflexivity|now rewrite app_nil_r].
Qed.

Lemma fold_network_line (lines : list string) : forall box,
  fold_left network_line lines box
  = (box ++ flat_map (network_line []) lines)%list.
Proof.
  induction lines as [|l ls IH]; intro box; simpl.
  - now rewrite app_nil_r.
  - rewrite IH, (network_line_app box l). now rewrite <- app_assoc.
Qed.

Lemma fold_peer_line (lines : list string) : forall box,
  fold_left peer_line lines box = (box ++ flat_map (peer_line []) lines)%list.
Proof.
  induction lines as [|l ls IH]; intro box; simpl.
  - now rewrite app_nil_r.
  - rewrite IH, (peer_line_app box l). now rewrite <- app_assoc.
Qed.

(** What one network line contributes, in terms of the validity test that
    [join_network] uses as well. *)
Lemma network_line_valid (line : string) :
  network_line [] line
  = if (8 <=? List.length (Py.split line))
       && valid_network_id (nth 2 (Py.split line) "")
    then [NetworkChild (network_row (Py.split line))] else [].
Proof.
  unfold network_line, valid_network_id.
  destruct (8 <=? _); [|reflexivity].
  destruct (_ =? 16); [|reflexivity].
  destruct (Py.int16 _) as [v|]; [|reflexivity].
  destruct (0 <=? v)%Z; reflexivity.
Qed.

(** The header is skipped, whatever it holds, and a line of at least 8
    tokens whose third token is 16 hexadecimal digits gives a row. *)
Lemma rebuild_networks_header_skipped :
  rebuild_networks true
    ("200 listnetworks 8056c2e21c000001 lan 02:00:00:00:00:01 OK PRIVATE "
     ++ "zt0 10.0.0.2/24")
  = [LabelChild "No networks"].
Proof. vm_compute. reflexivity. Qed.

Lemma network_line_hex_row (line : string) :
  8 <= List.length (Py.split line) ->
  String.length (nth 2 (Py.split line) "") = 16 ->
  Py.all_hex (nth 2 (Py.split line) "") = true ->
  network_line [] line = [NetworkChild (network_row (Py.split line))].
Proof.
  intros Hn Hlen Hhex. rewrite network_line_valid.
  apply Nat.leb_le in Hn. rewrite Hn.
  now rewrite (valid_network_id_complete _ Hlen Hhex).
Qed.

Lemma network_line_short (line : string) :
  List.length (Py.split line) < 8 -> network_line [] line = [].
Proof.
  intro H. rewrite network_line_valid.
  apply Nat.leb_gt in H. now rewrite H.
Qed.

(** The address is the ninth token when there is one and empty otherwise. *)
Lemma network_row_address (p : list string) :
  net_ip (network_row p)
  = match nth_error p 8 with Some t => t | None => "" end.
Proof.
  unfold network_row; cbn [net_ip].
  destruct (8 <? List.length p) eqn:E.
  - apply Nat.ltb_lt in E.
    destruct (nth_error p 8) eqn:N.
    + now apply nth_error_nth.
    + apply nth_error_None in N. lia.
  - apply Nat.ltb_ge in E.
    apply nth_error_None in E. now rewrite E.
Qed.

(** C4, at the input the code lets through: after the header, a line of 9
    tokens whose third token is [0x00000000000000] (16 characters, not all
    hexadecimal digits) gives a network row, with that token bound to the
    leave button and the ninth token as the address. *)
Theorem rebuild_networks_accepts_prefixed_literal :
  Py.all_hex
    (nth 2 (Py.split (nth 1 (Py.split_on newline networks_prefixed) "")) "")
  = false
  /\ rebuild_networks true networks_prefixed
     = [NetworkChild
          {| net_dot := dot "OK";
             net_tooltip := "OK";
             net_name := "lan";
             net_ip := "10.0.0.2/24";
             net_copy := Some "10.0.0.2";
             net_leave := ("0x00000000000000", "lan") |}].
Proof.
  vm_compute. split; reflexivity.
Qed.

(** The label shown for an empty box is no peer row. *)
Lemma peer_child_in_box (r : PeerRow) (text : string) (box : list Child) :
  In (PeerChild r) match box with [] => [LabelChild text] | _ => box end
  <-> In (PeerChild r) box.
Proof.
  destruct box; [|tauto].
  simpl. split; [intros [H|[]]; discriminate H|tauto].
Qed.

(** C5: a row of the rebuilt peer list is exactly the row of a line after
    the header that has at least 6 tokens, whose third token is LEAF and
    whose fourth token is not -1; the row shows that fourth token, the
    latency, followed by the unit. *)
Theorem rebuild_peers_rows (peers : string) (r : PeerRow) :
  In (PeerChild r) (rebuild_peers true peers) <->
  exists line,
    In line (tl (Py.split_on newline peers))
    /\ 6 <= List.length (Py.split line)
    /\ nth 2 (Py.split line) "" = "LEAF"
    /\ nth 3 (Py.split line) "" <> "-1"
    /\ r = peer_row (Py.split line)
    /\ peer_latency r = nth 3 (Py.split line) "" ++ "ms".
Proof.
  unfold rebuild_peers. cbv zeta.
  rewrite peer_child_in_box, fold_peer_line. cbn [app].
  rewrite in_flat_map.
  split.
  - intros (line & Hin & Hrow). exists line. split; [exact Hin|].
    unfold peer_line in Hrow.
    destruct (6 <=? _) eqn:E6; [|destruct Hrow].
    destruct (String.eqb _ "LEAF") eqn:El; [|destruct Hrow].
    destruct (String.eqb _ "-1") eqn:Em; [destruct Hrow|].
    simpl in Hrow. destruct Hrow as [Hrow|[]]. injection Hrow as <-.
    apply Nat.leb_le in E6. apply String.eqb_eq in El.
    apply String.eqb_neq in Em. repeat split; assumption.
  - intros (line & Hin & H6 & Hl & Hm & -> & _). exists line.
    split; [exact Hin|].
    unfold peer_line.
    apply Nat.leb_le in H6. apply String.eqb_eq in Hl.
    apply String.eqb_neq in Hm. rewrite H6, Hl, Hm. simpl. now left.
Qed.

(** The rows keep the order of the lines, and the two scenarios of the
    specification. *)
Lemma rebuild_peers_in_order (peers : string) :
  fold_left peer_line (tl (Py.split_on newline peers)) []
  = flat_map (peer_line []) (tl (Py.split_on newline peers)).
Proof. now rewrite fold_peer_line. Qed.

Example rebuild_peers_scenario :
  rebuild_peers true
    ("<ztaddr> <ver> <role> <lat> <link> <lastTX> <lastRX> <path>" ++ nl
     ++ "abc123 1.2.3 LEAF 42 DIRECT 100 200 1.2.3.4/9993" ++ nl
     ++ "def456 1.2.3 LEAF -1 RELAY" ++ nl
     ++ "778cde7190 - PLANET 30 DIRECT 5 5 103.195.103.66/9993")
  = [PeerChild {| peer_dot := dot "OK";
                  peer_address := "abc123...";
                  peer_latency := "42ms" |}].
Proof. vm_compute. reflexivity. Qed.

(** ** The single-flight runner *)

(** C1, as stated, fails for the empty label: with the busy flag clear the
    runner starts the work and returns true, yet the status label keeps its
    former markup, because [set_busy] surfaces a label only when it is
    non-empty. *)
Lemma run_async_empty_label_not_surfaced :
  let r := _run_async "" (JoinWork "8056c2e21c000001") app_idle in
  busy app_idle = false
  /\ fst r = true
  /\ status (ui (snd r)) = status (ui app_idle)
  /\ status (ui (snd r)) <> status_markup "WARN" "".
Proof.
  vm_compute. repeat split; try reflexivity. intro H; discriminate H.
Qed.

(** C1, amended: started while busy, the runner returns false and leaves
    the whole application state as it was (nothing submitted, busy flag and
    status untouched); started while not busy, it returns true, sets the
    busy flag, appends exactly the given work to the pool, and shows the
    label as the status when the label is non-empty (an empty label leaves
    the status as it was). *)
Theorem run_async_single_flight (label : string) (fn : Closure) (a : App) :
  let r := _run_async label fn a in
  if busy a then r = (false, a)
  else fst r = true
       /\ busy (snd r) = true
       /\ pool (snd r) = (pool a ++ [AsyncTask fn])%list
       /\ status (ui (snd r))
          = (if Py.truthy label then status_markup "WARN" label
             else status (ui a)).
Proof.
  unfold _run_async. destruct (busy a) eqn:B; cbv zeta; rewrite ?B.
  - reflexivity.
  - simpl. repeat split.
Qed.

(** C10: while the service manager is known absent or not yet checked,
    [service_action] changes nothing: the pool, the busy flag and every
    widget are as before, so no command is issued and no refresh follows. *)
Theorem service_action_without_systemd (action : string) (a : App) :
  has_systemd a = None \/ has_systemd a = Some false ->
  service_action action a = a
  /\ pool (service_action action a) = pool a
  /\ busy (service_action action a) = busy a.
Proof.
  intro H. assert (E : service_action action a = a).
  { unfold service_action. destruct H as [-> | ->]; simpl;
      now rewrite orb_true_r. }
  now rewrite E.
Qed.

Lemma service_action_without_systemd_witness :
  service_action "start" app_loading = app_loading
  /\ pool (service_action "start" app_loading) = pool app_loading
  /\ busy (service_action "start" app_loading) = busy app_loading.
Proof.
  apply (service_action_without_systemd "start" app_loading).
  left. reflexivity.
Defined.

(** With the service manager present and nothing in flight the same call
    does start: the guard is what makes the difference. *)
Example service_action_with_systemd :
  pool (service_action "stop" app_idle) = [ServiceTask "stop"]
  /\ busy (service_action "stop" app_idle) = true
  /\ status (ui (service_action "stop" app_idle))
     = status_markup "WARN" "stoping...".
Proof. vm_compute. repeat split; reflexivity. Qed.

(** ** The command executor *)

(** C3, as stated, fails: a command that exits with a non-zero status and
    has printed something gives that output, not the empty string; and an
    exception outside the three listed classes is not absorbed. *)
Lemma cmd_nonzero_exit_keeps_output :
  let argv := ["systemctl"; "is-active"; "firewalld"] in
  (exists out, run_outcome env_unit_inactive [] argv CMD_TIMEOUT
               = Ok {| returncode := 3; stdout := out |})
  /\ fst (cmd env_unit_inactive argv CMD_TIMEOUT []) = Ok "inactive"
  /\ fst (cmd env_unit_inactive argv CMD_TIMEOUT []) <> Ok ""
  /\ fst (cmd env_empty_argv [] CMD_TIMEOUT []) = Raise IndexError.
Proof.
  cbv zeta. split; [eexists; reflexivity|].
  vm_compute. repeat split; try reflexivity. intro H; discriminate H.
Qed.

(** C3, amended: whatever the operating system does with the command,
    [cmd] logs one run; a timeout, a missing binary and any other [OSError]
    give the empty string and are not raised; a process that completes
    gives its standard output, stripped, whatever its exit status; an
    exception of another class passes through. *)
Theorem cmd_outcomes (env : Env) (argv : list string) (timeout : Z)
    (h : History) :
  snd (cmd env argv timeout h) = (h ++ [EvRun argv timeout])%list
  /\ match run_outcome env h argv timeout with
     | Ok r => fst (cmd env argv timeout h) = Ok (Py.strip (stdout r))
     | Raise TimeoutExpired
     | Raise FileNotFoundError
     | Raise PermissionError
     | Raise OSError => fst (cmd env argv timeout h) = Ok ""
     | Raise e => fst (cmd env argv timeout h) = Raise e
     end.
Proof.
  unfold cmd, try_except, bind, subprocess_run, ret.
  destruct (run_outcome env h argv timeout) as [r|[]]; simpl; split;
    reflexivity.
Qed.

(** ** The dispatcher script *)

Section DispatcherFacts.

Variable denied : FsOp -> bool.
Variable create_mode : Z.

(** No error leaves [write_dispatcher]: both branches end in a handler
    that absorbs every [OSError], and the calls raise nothing else. *)
Lemma write_dispatcher_returns (route : bool) (fw : option string)
    (d : Disk) :
  fst (write_dispatcher denied create_mode route fw d) = Ok tt.
Proof.
  unfold write_dispatcher, try_except, bind, os_remove, open_w, file_write,
    os_chmod, ret.
  destruct (negb route && negb (fw_truthy fw)).
  - destruct (denied OpRemove); [reflexivity|]. now destruct d.
  - destruct (denied OpOpenWrite); [reflexivity|].
    destruct d; simpl; destruct (denied OpWrite); simpl; try reflexivity;
      destruct (denied OpChmod); reflexivity.
Qed.

(** The disk after a call, case by case. *)
Lemma write_dispatcher_disk (route : bool) (fw : option string) (d : Disk) :
  snd (write_dispatcher denied create_mode route fw d)
  = if negb route && negb (fw_truthy fw) then
      (if denied OpRemove then d else None)
    else if denied OpOpenWrite then d
    else
      let m := match d with Some f => mode f | None => create_mode end in
      Some {| content := if denied OpWrite then "" else script_text route fw;
              mode := if denied OpWrite || denied OpChmod then m else 493 |}.
Proof.
  unfold write_dispatcher, try_except, bind, os_remove, open_w, file_write,
    os_chmod, ret.
  destruct (negb route && negb (fw_truthy fw)).
  - destruct (denied OpRemove); [reflexivity|]. now destruct d.
  - destruct (denied OpOpenWrite); [reflexivity|].
    destruct d; simpl; destruct (denied OpWrite); simpl; try reflexivity;
      destruct (denied OpChmod); reflexivity.
Qed.

(** C6: a call of [write_dispatcher] raises nothing; a second call with the
    same arguments leaves the file exactly as the first one did, content
    and mode; a write that is not refused leaves the text that the two
    arguments determine; and with both arguments false the file is removed
    whatever was there, unless the removal is refused, in which case the
    error is absorbed and the disk is as before. *)
Theorem write_dispatcher_idempotent (route : bool) (fw : option string)
    (d : Disk) :
  fst (write_dispatcher denied create_mode route fw d) = Ok tt
  /\ fst (write_dispatcher denied create_mode route fw
            (snd (write_dispatcher denied create_mode route fw d))) = Ok tt
  /\ snd (write_dispatcher denied create_mode route fw
            (snd (write_dispatcher denied create_mode route fw d)))
     = snd (write_dispatcher denied create_mode route fw d)
  /\ snd (write_dispatcher denied create_mode route fw d)
     = (if negb route && negb (fw_truthy fw) then
          (if denied OpRemove then d else None)
        else if denied OpOpenWrite then d
        else
          let m := match d with Some f => mode f | None => create_mode end in
          Some {| content :=
                    if denied OpWrite then "" else script_text route fw;
                  mode :=
                    if denied OpWrite || denied OpChmod then m else 493 |}).
Proof.
  split; [apply write_dispatcher_returns|].
  split; [apply write_dispatcher_returns|].
  split; [|apply write_dispatcher_disk].
  rewrite !write_dispatcher_disk.
  destruct (negb route && negb (fw_truthy fw)).
  - now destruct (denied OpRemove).
  - destruct (denied OpOpenWrite); [reflexivity|].
    destruct (denied OpWrite); simpl; [now destruct d|].
    now destruct (denied OpChmod), d.
Qed.

(** C9: when no call is refused, what [read_dispatcher] reports after
    [write_dispatcher(route, fw)] is the route flag and whether a firewall
    kind was given, for either flag and each of the three kinds; after
    [write_dispatcher(False, None)] the file is gone. *)
Theorem dispatcher_round_trip (route : bool) (fw : option string)
    (d : Disk) :
  (forall op, denied op = false) ->
  In fw [None; Some "firewalld"; Some "ufw"] ->
  fst (read_dispatcher denied
         (snd (write_dispatcher denied create_mode route fw d)))
  = Ok (route, is_some fw)
  /\ (snd (write_dispatcher denied create_mode route fw d) = None
      <-> route = false /\ fw = None).
Proof.
  intros Hall Hfw. rewrite write_dispatcher_disk.
  unfold read_dispatcher, try_except, bind, open_read, ret.
  rewrite !Hall.
  destruct Hfw as [<-|[<-|[<-|[]]]]; destruct route;
    cbn [negb andb fw_truthy Py.truthy is_some orb]; cbv zeta;
    (split; [vm_compute; reflexivity|]);
    (split; [try discriminate; auto | intros [? ?]; discriminate || auto]).
Qed.

End DispatcherFacts.

Lemma dispatcher_round_trip_witness :
  fst (read_dispatcher no_denial
         (snd (write_dispatcher no_denial default_mode false
                 (Some "firewalld") disk_old_script)))
  = Ok (false, is_some (Some "firewalld"))
  /\ (snd (write_dispatcher no_denial default_mode false (Some "firewalld")
             disk_old_script) = None
      <-> false = false /\ Some "firewalld" = None).
Proof.
  apply (dispatcher_round_trip no_denial default_mode false
           (Some "firewalld") disk_old_script).
  - intro op. reflexivity.
  - simpl. right. left. reflexivity.
Defined.

(** The scenarios of the specification: both toggles with firewalld give a
    script with the route line and the zone line; switching the route off
    rewrites it without the route line; switching both off removes it, also
    when it was never there; a refused removal changes nothing. *)
Example dispatcher_scenarios :
  let both := snd (write_dispatcher no_denial default_mode true
                     (Some "firewalld") None) in
  let fw_only := snd (write_dispatcher no_denial default_mode false
                        (Some "firewalld") both) in
  option_map content both
    = Some (Py.join nl (header_lines ++ [route_line; firewalld_line])%list
            ++ nl)
  /\ option_map mode both = Some 493%Z
  /\ option_map content fw_only
     = Some (Py.join nl (header_lines ++ [firewalld_line])%list ++ nl)
  /\ snd (write_dispatcher no_denial default_mode false None fw_only) = None
  /\ write_dispatcher no_denial default_mode false None None = (Ok tt, None)
  /\ write_dispatcher remove_denied default_mode false None disk_old_script
     = (Ok tt, disk_old_script).
Proof. vm_compute. repeat split; reflexivity. Qed.

(** ** Worker code under a well-behaved operating system *)

Section WorkerFacts.

Variable env : Env.
Hypothesis env_ok : well_behaved env.

Lemma cmd_returns (argv : list string) (timeout : Z) (h : History) :
  exists out,
    cmd env argv timeout h = (Ok out, (h ++ [EvRun argv timeout])%list).
Proof.
  unfold cmd, try_except, bind, subprocess_run, ret.
  destruct (run_outcome env h argv timeout) as [r|e] eqn:E.
  - eexists; reflexivity.
  - rewrite (env_ok _ _ _ _ E). eexists; reflexivity.
Qed.

Lemma get_service_info_returns (hs : option bool) (h : History) :
  exists info,
    get_service_info env hs h = (Ok info, (h ++ query_events hs)%list).
Proof.
  unfold get_service_info, bind, query_events.
  destruct (cmd_returns ["zerotier-cli"; "info"] CMD_TIMEOUT h) as (o1 & ->).
  destruct (flag_truthy hs); simpl.
  - match goal with
    | |- context [cmd env ?argv ?t ?h'] =>
        destruct (cmd_returns argv t h') as (o2 & ->)
    end.
    destruct (fold_left _ _ _) as [state enabled].
    unfold ret. rewrite <- app_assoc. eexists; reflexivity.
  - unfold ret. eexists; reflexivity.
Qed.

Lemma rounds_succ (hs : option bool) (k : nat) :
  rounds hs (S k) = (poll_events hs ++ rounds hs k)%list.
Proof. reflexivity. Qed.

Lemma rounds_no_refresh (hs : option bool) (k : nat) :
  filter is_refresh (rounds hs k) = [].
Proof.
  induction k as [|k IH]; [reflexivity|].
  rewrite rounds_succ, filter_app, IH.
  unfold poll_events, query_events. now destruct (flag_truthy hs).
Qed.

Lemma rounds_sleeps (hs : option bool) (k : nat) :
  List.length (filter is_sleep (rounds hs k)) = k.
Proof.
  induction k as [|k IH]; [reflexivity|].
  rewrite rounds_succ, filter_app, length_app, IH.
  unfold poll_events, query_events. now destruct (flag_truthy hs).
Qed.

(** The poll loop: it makes [k] turns, at least one and at most [n]; the
    turns before the last found no [break] test true; and if it stopped
    before the budget was spent, the last turn found one true. *)
Lemma poll_turns (hs : option bool) (expect : bool) (n : nat) :
  forall h,
  exists k,
    k <= n /\ (0 < n -> 0 < k)
    /\ poll env hs expect n h = (Ok tt, (h ++ rounds hs k)%list)
    /\ (forall j, S j < k ->
        exists state enabled online,
          observed env hs h j = Ok (state, enabled, online)
          /\ poll_break expect state online = false)
    /\ (k < n ->
        exists j state enabled online,
          k = S j
          /\ observed env hs h j = Ok (state, enabled, online)
          /\ poll_break expect state online = true).
Proof.
  induction n as [|n IH]; intro h.
  - exists 0. simpl. unfold ret, rounds. simpl. rewrite app_nil_r.
    repeat split; try lia; intros; lia.
  - cbn [poll]. unfold bind at 1, sleep, emit. unfold bind at 1.
    destruct (get_service_info_returns hs (h ++ [EvSleep 500])%list)
      as ([[state enabled] online] & Hq).
    assert (Hobs0 : observed env hs h 0 = Ok (state, enabled, online)).
    { unfold observed, rounds. simpl. now rewrite Hq. }
    rewrite Hq.
    destruct (poll_break expect state online) eqn:Hb.
    + exists 1. unfold ret, rounds. simpl. rewrite app_nil_r, <- app_assoc.
      split; [lia|]. split; [lia|]. split; [reflexivity|]. split.
      * intros j Hj; lia.
      * intros _. exists 0, state, enabled, online. auto.
    + destruct (IH ((h ++ [EvSleep 500]) ++ query_events hs)%list)
        as (k & Hk & Hpos & Hrun & Hbefore & Hlast).
      assert (Hshift : forall j,
                 observed env hs
                   ((h ++ [EvSleep 500]) ++ query_events hs)%list j
                 = observed env hs h (S j)).
      { intro j. unfold observed. rewrite rounds_succ. unfold poll_events.
        now rewrite <- !app_assoc. }
      exists (S k). rewrite Hrun, rounds_succ. unfold poll_events.
      rewrite <- !app_assoc. simpl.
      split; [lia|]. split; [lia|]. split; [reflexivity|]. split.
      * intros [|j] Hj.
        -- exists state, enabled, online. auto.
        -- destruct (Hbefore j ltac:(lia)) as (s & e & o & Ho & Hbr).
           exists s, e, o. now rewrite <- Hshift.
      * intro Hlt.
        destruct (Hlast ltac:(lia)) as (j & s & e & o & -> & Ho & Hbr).
        exists (S j), s, e, o. now rewrite <- Hshift.
Qed.

(** The [break] tests of the loop say what the specification calls
    convergence. *)
Lemma poll_break_converged (action state : string) (online : bool) :
  poll_break (expects_active action) state online = true
  <-> converged action state online.
Proof.
  assert (Hexp : expects_active action = true
                 <-> action = "start" \/ action = "restart").
  { unfold expects_active. rewrite orb_true_iff, !String.eqb_eq. tauto. }
  unfold poll_break, converged. rewrite <- Hexp. clear Hexp.
  destruct (expects_active action), online,
    (String.eqb_spec state "active"), (String.eqb_spec state "failed"),
    (String.eqb_spec state "inactive"); simpl;
    split; intro H; intuition (try discriminate; try congruence).
Qed.

(** C7: after the service command (run with a timeout of 15 s) the
    controller makes [k] turns of its loop, at least 1 and at most 10;
    each turn sleeps 0.5 s and then asks for the daemon's reachability and
    the unit's state anew; no turn before the last saw a converged state;
    if the loop left before the tenth turn, the last turn saw one; and
    after the loop, converged or not, one refresh is scheduled and only
    one. *)
Theorem service_work_polls (action : string) (h : History) :
  let start := (h ++ [EvRun ["systemctl"; action; "zerotier-one"] 15])%list in
  exists k,
    1 <= k <= 10
    /\ service_work env (Some true) action h
       = (Ok tt,
          (start ++ rounds (Some true) k ++ [EvIdleAdd RefreshAsync])%list)
    /\ List.length (filter is_sleep (rounds (Some true) k)) = k
    /\ filter is_refresh (rounds (Some true) k ++ [EvIdleAdd RefreshAsync])
       = [EvIdleAdd RefreshAsync]
    /\ (forall j, S j < k ->
        exists state enabled online,
          observed env (Some true) start j = Ok (state, enabled, online)
          /\ ~ converged action state online)
    /\ (k < 10 ->
        exists j state enabled online,
          k = S j
          /\ observed env (Some true) start j = Ok (state, enabled, online)
          /\ converged action state online).
Proof.
  intro start. unfold service_work. unfold bind at 1.
  destruct (cmd_returns ["systemctl"; action; "zerotier-one"] 15 h)
    as (out & ->). fold start.
  destruct (poll_turns (Some true) (expects_active action) 10 start)
    as (k & Hk & Hpos & Hrun & Hbefore & Hlast).
  exists k. unfold bind. rewrite Hrun. unfold idle_add, emit.
  rewrite <- app_assoc.
  split; [lia|]. split; [reflexivity|].
  split; [apply rounds_sleeps|].
  split; [now rewrite filter_app, rounds_no_refresh|].
  split.
  - intros j Hj. destruct (Hbefore j Hj) as (s & e & o & Ho & Hbr).
    exists s, e, o. split; [exact Ho|].
    intro Hc. apply poll_break_converged in Hc. congruence.
  - intro Hlt. destruct (Hlast Hlt) as (j & s & e & o & -> & Ho & Hbr).
    exists j, s, e, o. repeat split; try assumption.
    now apply poll_break_converged.
Qed.

(** The two probes of [detect_firewall]. *)
Lemma probe_firewalld_spec (h : History) :
  exists b,
    probe_firewalld env h
    = (Ok b,
       (h ++ EvWhich "firewall-cmd"
          :: (if path_truthy (which_outcome env h "firewall-cmd")
              then [EvRun ["systemctl"; "is-active"; "firewalld"] CMD_TIMEOUT]
              else []))%list)
    /\ (b = true <-> firewalld_detected env h).
Proof.
  unfold probe_firewalld, firewalld_detected, bind, which.
  destruct (path_truthy (which_outcome env h "firewall-cmd")).
  - destruct (cmd_returns ["systemctl"; "is-active"; "firewalld"]
                CMD_TIMEOUT (h ++ [EvWhich "firewall-cmd"])%list)
      as (out & ->).
    exists (String.eqb out "active"). unfold ret. rewrite <- app_assoc.
    split; [reflexivity|]. simpl. rewrite String.eqb_eq.
    split; [intros ->; auto|intros [_ H]; congruence].
  - exists false. unfold ret. split; [reflexivity|].
    split; [discriminate|intros [H _]; discriminate].
Qed.

Lemma probe_ufw_spec (h : History) :
  exists b h',
    probe_ufw env h = (Ok b, h') /\ (b = true <-> ufw_detected env h).
Proof.
  unfold probe_ufw, ufw_detected, bind, which.
  destruct (path_truthy (which_outcome env h "ufw")).
  - destruct (cmd_returns ["ufw"; "status"] CMD_TIMEOUT
                (h ++ [EvWhich "ufw"])%list) as (out & ->).
    exists (Py.contains "Status: active" out). eexists. unfold ret.
    split; [reflexivity|]. simpl.
    split.
    + intro H. split; [reflexivity|]. exists out. auto.
    + intros (_ & o & Ho & Hc). congruence.
  - exists false. eexists. unfold ret. split; [reflexivity|].
    split; [discriminate|intros [H _]; discriminate].
Qed.

(** C8: the probe answers firewalld exactly when the firewall-cmd tool is
    on the path and the firewalld unit reports active, and then nothing
    about ufw is asked; it answers ufw exactly when firewalld was not
    detected and ufw, probed after it, is on the path with a status output
    that holds the active status line; it answers None exactly when
    neither is detected. *)
Theorem detect_firewall_first_match (h : History) :
  let after_firewalld := snd (probe_firewalld env h) in
  (detect_firewall env h
   = (Ok (Some "firewalld"),
      (h ++ [EvWhich "firewall-cmd";
             EvRun ["systemctl"; "is-active"; "firewalld"] CMD_TIMEOUT])%list)
   <-> firewalld_detected env h)
  /\ (fst (detect_firewall env h) = Ok (Some "firewalld")
      <-> firewalld_detected env h)
  /\ (fst (detect_firewall env h) = Ok (Some "ufw")
      <-> ~ firewalld_detected env h /\ ufw_detected env after_firewalld)
  /\ (fst (detect_firewall env h) = Ok None
      <-> ~ firewalld_detected env h /\ ~ ufw_detected env after_firewalld).
Proof.
  intro h2. subst h2. unfold detect_firewall, bind.
  destruct (probe_firewalld_spec h) as (b & Hp & Hb). rewrite Hp.
  cbn [snd]. destruct b.
  - assert (Hd : firewalld_detected env h) by now apply Hb.
    pose proof Hd as [Hw _]. rewrite Hw. unfold ret. cbn [fst app].
    split; [split; [intros _; exact Hd | intros _; reflexivity]|].
    split; [split; [intros _; exact Hd | intros _; reflexivity]|].
    split; split; try (intro H; discriminate H);
      intros [Hn _]; contradiction.
  - assert (Hd : ~ firewalld_detected env h)
      by (intro H; apply Hb in H; discriminate).
    match goal with
    | |- context [probe_ufw env ?h2] =>
        destruct (probe_ufw_spec h2) as (u & h' & Hu & Hub); rewrite Hu
    end.
    destruct u; unfold ret; cbn [fst].
    + assert (Hud := proj1 Hub eq_refl).
      split; [split; [intro H; discriminate H | intro; contradiction]|].
      split; [split; [intro H; discriminate H | intro; contradiction]|].
      split; [split; [intros _; split; assumption | reflexivity]|].
      split; [intro H; discriminate H | intros [_ Hn]; contradiction].
    + assert (Hud : ~ ufw_detected env
                (h ++ EvWhich "firewall-cmd"
                   :: (if path_truthy (which_outcome env h "firewall-cmd")
                       then [EvRun ["systemctl"; "is-active"; "firewalld"]
                               CMD_TIMEOUT]
                       else []))%list)
        by (intro H; apply Hub in H; discriminate).
      split; [split; [intro H; discriminate H | intro; contradiction]|].
      split; [split; [intro H; discriminate H | intro; contradiction]|].
      split; [split; [intro H; discriminate H
                     | intros [_ Hn]; contradiction]|].
      split; [intros _; split; assumption | reflexivity].
Qed.

End WorkerFacts.

(** ** The example environments *)

Lemma env_stopping_well_behaved : well_behaved env_stopping.
Proof.
  intros h argv timeout e H. simpl in H.
  destruct (String.eqb (nth 0 argv "") "zerotier-cli"); [discriminate H|].
  destruct (String.eqb (nth 1 argv "") "show"); discriminate H.
Qed.

Lemma env_both_firewalls_well_behaved : well_behaved env_both_firewalls.
Proof.
  intros h argv timeout e H. simpl in H.
  destruct (String.eqb (nth 0 argv "") "ufw"); discriminate H.
Qed.

Lemma service_work_polls_witness :
  let start := [EvRun ["systemctl"; "stop"; "zerotier-one"] 15] in
  exists k,
    1 <= k <= 10
    /\ service_work env_stopping (Some true) "stop" []
       = (Ok tt,
          (start ++ rounds (Some true) k ++ [EvIdleAdd RefreshAsync])%list)
    /\ List.length (filter is_sleep (rounds (Some true) k)) = k
    /\ filter is_refresh (rounds (Some true) k ++ [EvIdleAdd RefreshAsync])
       = [EvIdleAdd RefreshAsync]
    /\ (forall j, S j < k ->
        exists state enabled online,
          observed env_stopping (Some true) start j
          = Ok (state, enabled, online)
          /\ ~ converged "stop" state online)
    /\ (k < 10 ->
        exists j state enabled online,
          k = S j
          /\ observed env_stopping (Some true) start j
             = Ok (state, enabled, online)
          /\ converged "stop" state online).
Proof.
  exact (service_work_polls env_stopping env_stopping_well_behaved "stop" []).
Defined.

(** The scenario of the specification: a stop whose unit turns inactive at
    the third poll leaves the loop there, and one refresh follows. *)
Example service_work_stop_scenario :
  let show := EvRun ["systemctl"; "show"; "zerotier-one";
                     "--property=ActiveState,UnitFileState"] CMD_TIMEOUT in
  let info := EvRun ["zerotier-cli"; "info"] CMD_TIMEOUT in
  service_work env_stopping (Some true) "stop" []
  = (Ok tt,
     [EvRun ["systemctl"; "stop"; "zerotier-one"] 15;
      EvSleep 500; info; show;
      EvSleep 500; info; show;
      EvSleep 500; info; show;
      EvIdleAdd RefreshAsync])
  /\ observed env_stopping (Some true)
       [EvRun ["systemctl"; "stop"; "zerotier-one"] 15] 1
     = Ok ("deactivating", true, true)
  /\ observed env_stopping (Some true)
       [EvRun ["systemctl"; "stop"; "zerotier-one"] 15] 2
     = Ok ("inactive", true, true).
Proof. vm_compute. repeat split; reflexivity. Qed.

(** A start that never converges spends the whole budget of 10 turns and
    is followed by one refresh all the same. *)
Example service_work_budget_spent :
  service_work env_silent (Some true) "start" []
  = (Ok tt,
     ([EvRun ["systemctl"; "start"; "zerotier-one"] 15]
      ++ rounds (Some true) 10 ++ [EvIdleAdd RefreshAsync])%list).
Proof. vm_compute. reflexivity. Qed.

Lemma detect_firewall_first_match_witness :
  let after_firewalld := snd (probe_firewalld env_both_firewalls []) in
  (detect_firewall env_both_firewalls []
   = (Ok (Some "firewalld"),
      [EvWhich "firewall-cmd";
       EvRun ["systemctl"; "is-active"; "firewalld"] CMD_TIMEOUT])
   <-> firewalld_detected env_both_firewalls [])
  /\ (fst (detect_firewall env_both_firewalls []) = Ok (Some "firewalld")
      <-> firewalld_detected env_both_firewalls [])
  /\ (fst (detect_firewall env_both_firewalls []) = Ok (Some "ufw")
      <-> ~ firewalld_detected env_both_firewalls []
          /\ ufw_detected env_both_firewalls after_firewalld)
  /\ (fst (detect_firewall env_both_firewalls []) = Ok None
      <-> ~ firewalld_detected env_both_firewalls []
          /\ ~ ufw_detected env_both_firewalls after_firewalld).
Proof.
  exact (detect_firewall_first_match env_both_firewalls
           env_both_firewalls_well_behaved []).
Defined.

(** With both firewalls active the first match wins and ufw is not even
    looked for; with ufw alone the answer is ufw; with neither it is None. *)
Example detect_firewall_scenarios :
  detect_firewall env_both_firewalls []
  = (Ok (Some "firewalld"),
     [EvWhich "firewall-cmd";
      EvRun ["systemctl"; "is-active"; "firewalld"] CMD_TIMEOUT])
  /\ detect_firewall env_ufw_only []
     = (Ok (Some "ufw"),
        [EvWhich "firewall-cmd"; EvWhich "ufw";
         EvRun ["ufw"; "status"] CMD_TIMEOUT])
  /\ detect_firewall env_silent []
     = (Ok None, [EvWhich "firewall-cmd"; EvWhich "ufw"]).
Proof. vm_compute. repeat split; reflexivity. Qed.

(* ================================================================== *)
(** * Further properties: start-up *)
(* ================================================================== *)

(** The argument loop lets the program start exactly when no argument asks
    for help or the version and every argument that begins with a dash
    holds an equals sign: a [KEY=VALUE] word is never taken for an unknown
    option. *)
Theorem parse_args_continue (args : list string) :
  parse_args args = Continue
  <-> Forall (fun a =>
                in_list a ["-h"; "--help"; "-v"; "--version"] = false
                /\ (Py.startswith a "-" && negb (Py.contains "=" a)) = false)
             args.
Proof.
  induction args as [|a rest IH]; cbn [parse_args].
  - split; [constructor|reflexivity].
  - rewrite Forall_cons_iff, <- IH.
    assert (Hin : in_list a ["-h"; "--help"; "-v"; "--version"]
                  = in_list a ["-h"; "--help"]
                    || in_list a ["-v"; "--version"]).
    { unfold in_list. cbn [existsb]. now rewrite !orb_false_r, !orb_assoc. }
    rewrite Hin.
    destruct (in_list a ["-h"; "--help"]);
      destruct (in_list a ["-v"; "--version"]);
      destruct (Py.startswith a "-" && negb (Py.contains "=" a));
      cbn [orb]; split; intro H;
      try discriminate H; try tauto;
      try (destruct H as [[? ?] ?]; discriminate).
Qed.

(** One restored argument, then the loop, leave every variable outside
    the whitelist as it was. *)
Lemma restore_arg_only_allowed (environ : Environ) (a k : string) :
  in_list k ALLOWED_ENV = false -> restore_arg environ a k = environ k.
Proof.
  intro Hk. unfold restore_arg.
  destruct (Py.contains "=" a); [|reflexivity].
  destruct (in_list (nth 0 (Py.split1 "="%char a) "") ALLOWED_ENV) eqn:E;
    [|reflexivity].
  unfold setenv. destruct (String.eqb_spec k (nth 0 (Py.split1 "="%char a) ""))
    as [->|_]; [congruence|reflexivity].
Qed.

(** Whatever the arguments are, restoring the environment from them never
    sets or changes a variable that is not on the whitelist. *)
Theorem restore_env_only_allowed (args : list string) (environ : Environ)
    (k : string) :
  in_list k ALLOWED_ENV = false ->
  restore_env args environ k = environ k.
Proof.
  intro Hk. unfold restore_env. revert environ.
  induction args as [|a rest IH]; intro environ; simpl; [reflexivity|].
  rewrite IH. now apply restore_arg_only_allowed.
Qed.

Lemma restore_env_only_allowed_witness :
  restore_env ["LD_PRELOAD=/tmp/evil.so"; "GTK_THEME=Adwaita"]
    (fun _ => None) "LD_PRELOAD" = None.
Proof.
  apply (restore_env_only_allowed
           ["LD_PRELOAD=/tmp/evil.so"; "GTK_THEME=Adwaita"]
           (fun _ => None) "LD_PRELOAD").
  reflexivity.
Defined.

(** ** [gsettings_get] *)





(** ** The theme handed through pkexec *)

Lemma lower_app (a b : string) :
  Py.lower (a ++ b) = Py.lower a ++ Py.lower b.
Proof. induction a as [|c r IH]; simpl; [reflexivity|now rewrite IH]. Qed.

Lemma length_append (a b : string) :
  String.length (a ++ b) = String.length a + String.length b.
Proof. induction a as [|c r IH]; simpl; [reflexivity|now rewrite IH]. Qed.

Lemma drop_append (a b : string) :
  Str.drop (String.length a) (a ++ b) = b.
Proof.
  induction a as [|c r IH]; simpl; [now destruct b|exact IH].
Qed.

Lemma endswith_append (a suffix : string) :
  Str.endswith (a ++ suffix) suffix = true.
Proof.
  unfold Str.endswith. rewrite length_append.
  replace (String.length a + String.length suffix - String.length suffix)
    with (String.length a) by lia.
  rewrite drop_append, String.eqb_refl, andb_true_r.
  apply Nat.leb_le. lia.
Qed.

(** When the colour scheme asks for dark, the theme handed on ends in
    [-dark], whatever the case of its letters: either it did already or
    the suffix is added. *)
Theorem themed_dark (theme scheme : string) :
  Py.contains "dark" (Py.lower scheme) = true ->
  Str.endswith (Py.lower (themed theme scheme)) "-dark" = true.
Proof.
  intro H. unfold themed. rewrite H. cbn [andb].
  destruct (Str.endswith (Py.lower theme) "-dark") eqn:E; cbn [negb].
  - exact E.
  - rewrite lower_app. apply endswith_append.
Qed.

Lemma themed_dark_witness :
  Str.endswith (Py.lower (themed "Adwaita" "'prefer-dark'")) "-dark" = true.
Proof.
  apply (themed_dark "Adwaita" "'prefer-dark'"). reflexivity.
Defined.

(** ** The environment handed through pkexec *)

Lemma gsettings_get_returns (env : Env) (key : string) (h : History) :
  well_behaved env ->
  exists out h', gsettings_get env key h = (Ok out, h').
Proof.
  intro Hwb. unfold gsettings_get, try_except, bind, subprocess_run, ret.
  destruct (run_outcome env h _ CMD_TIMEOUT) as [r|e] eqn:E.
  - eexists; eexists; reflexivity.
  - rewrite (Hwb _ _ _ _ E). eexists; eexists; reflexivity.
Qed.

Lemma env_silent_well_behaved : well_behaved env_silent.
Proof. intros h argv timeout e H. discriminate H. Qed.

Lemma startswith_nil (s : string) : Py.startswith s "" = true.
Proof. now destruct s. Qed.

Lemma contains_cons (needle r : string) (c : ascii) :
  Py.contains needle (String c r)
  = Py.startswith (String c r) needle || Py.contains needle r.
Proof. reflexivity. Qed.

Lemma contains_key (k v : string) : Py.contains "=" (k ++ "=" ++ v) = true.
Proof.
  induction k as [|c r IH].
  - change ("" ++ "=" ++ v) with (String "="%char v).
    rewrite contains_cons. cbn [Py.startswith Ascii.eqb Bool.eqb andb].
    now rewrite startswith_nil.
  - change (String c r ++ "=" ++ v) with (String c (r ++ "=" ++ v)).
    rewrite contains_cons, IH. apply orb_true_r.
Qed.

Lemma append_snoc (cur r : string) (c : ascii) :
  (cur ++ String c "") ++ r = cur ++ String c r.
Proof. induction cur as [|x t IH]; simpl; [reflexivity|now rewrite IH]. Qed.

Lemma split1_from_key (k v : string) : forall cur,
  Str.mem "="%char k = false ->
  Py.split1_from "="%char cur (k ++ "=" ++ v) = [cur ++ k; v].
Proof.
  induction k as [|c r IH]; intros cur Hk.
  - change ("" ++ "=" ++ v) with (String "="%char v).
    cbn [Py.split1_from]. rewrite Ascii.eqb_refl. f_equal.
    induction cur as [|x t IHc]; simpl; [reflexivity|].
    now rewrite <- IHc.
  - change (String c r ++ "=" ++ v) with (String c (r ++ "=" ++ v)).
    cbn [Str.mem] in Hk. apply orb_false_iff in Hk as [Hc Hr].
    rewrite Ascii.eqb_sym in Hc.
    cbn [Py.split1_from]. rewrite Hc, (IH _ Hr).
    now rewrite append_snoc.
Qed.

(** A word [KEY=VALUE] whose key is whitelisted sets exactly that key to
    exactly that value, equals signs in the value included. *)
Lemma restore_arg_key (environ : Environ) (k v : string) :
  in_list k ALLOWED_ENV = true -> Str.mem "="%char k = false ->
  restore_arg environ (k ++ "=" ++ v) = setenv environ k v.
Proof.
  intros Hk Hm. unfold restore_arg, Py.split1.
  rewrite contains_key, (split1_from_key k v "" Hm). simpl nth.
  now rewrite Hk.
Qed.

Lemma pkexec_word_ok (k v : string) :
  in_list k ALLOWED_ENV = true -> Str.mem "="%char k = false ->
  Py.contains "=" (k ++ "=" ++ v) = true
  /\ in_list (nth 0 (Py.split1 "="%char (k ++ "=" ++ v)) "") ALLOWED_ENV
     = true.
Proof.
  intros Hk Hm. split; [apply contains_key|].
  unfold Py.split1. now rewrite (split1_from_key k v "" Hm).
Qed.

(** The words built for the re-execution under pkexec are all of the form
    [KEY=VALUE] with a whitelisted key, so the argument loop of the
    re-executed program lets them pass and the restore loop takes each of
    them: the home directory and the display arrive as they were. *)
Theorem pkexec_env_restored (env : Env) (home : string)
    (environ e0 : Environ) (h : History) :
  well_behaved env ->
  exists l h',
    pkexec_env env home environ h = (Ok l, h')
    /\ parse_args l = Continue
    /\ Forall (fun a =>
                 Py.contains "=" a = true
                 /\ in_list (nth 0 (Py.split1 "="%char a) "") ALLOWED_ENV
                    = true) l
    /\ restore_env l e0 "USER_HOME" = Some home
    /\ restore_env l e0 "GTK_A11Y" = Some "none"
    /\ restore_env l e0 "GTK_USE_PORTAL" = Some "0"
    /\ restore_env l e0 "DISPLAY"
       = match environ "DISPLAY" with
         | Some d => Some d
         | None => e0 "DISPLAY"
         end.
Proof.
  intro Hwb. unfold pkexec_env, bind. cbv zeta.
  destruct (gsettings_get_returns env "gtk-theme" h Hwb) as (theme & h1 & ->).
  set (w := if Py.startswith _ "/" then _ else _). clearbody w.
  assert (E1 : forall e, restore_arg e ("USER_HOME=" ++ home)
                         = setenv e "USER_HOME" home)
    by (intro e; now apply (restore_arg_key e "USER_HOME" home)).
  assert (E2 : forall e, restore_arg e "GTK_A11Y=none"
                         = setenv e "GTK_A11Y" "none")
    by (intro e; now apply (restore_arg_key e "GTK_A11Y" "none")).
  assert (E3 : forall e, restore_arg e "GTK_USE_PORTAL=0"
                         = setenv e "GTK_USE_PORTAL" "0")
    by (intro e; now apply (restore_arg_key e "GTK_USE_PORTAL" "0")).
  assert (E4 : forall d e, restore_arg e ("DISPLAY=" ++ d)
                           = setenv e "DISPLAY" d)
    by (intros d e; now apply (restore_arg_key e "DISPLAY" d)).
  assert (E5 : forall e, restore_arg e ("WAYLAND_DISPLAY=" ++ w)
                         = setenv e "WAYLAND_DISPLAY" w)
    by (intro e; now apply (restore_arg_key e "WAYLAND_DISPLAY" w)).
  assert (E6 : forall t e, restore_arg e ("GTK_THEME=" ++ t)
                           = setenv e "GTK_THEME" t)
    by (intros t e; now apply (restore_arg_key e "GTK_THEME" t)).
  assert (W1 := pkexec_word_ok "USER_HOME" home eq_refl eq_refl).
  assert (W2 := pkexec_word_ok "GTK_A11Y" "none" eq_refl eq_refl).
  assert (W3 := pkexec_word_ok "GTK_USE_PORTAL" "0" eq_refl eq_refl).
  assert (W4 := fun d => pkexec_word_ok "DISPLAY" d eq_refl eq_refl).
  assert (W5 := pkexec_word_ok "WAYLAND_DISPLAY" w eq_refl eq_refl).
  assert (W6 := fun t => pkexec_word_ok "GTK_THEME" t eq_refl eq_refl).
  destruct (Py.truthy theme).
  - destruct (gsettings_get_returns env "color-scheme" h1 Hwb)
      as (scheme & h2 & ->).
    generalize (themed theme scheme) as t. intro t.
    unfold ret. eexists; eexists. split; [reflexivity|].
    destruct (environ "DISPLAY") as [d|];
      destruct (Py.truthy (getenv environ "XDG_RUNTIME_DIR")
                && Py.truthy (getenv environ "WAYLAND_DISPLAY"));
      cbn [app]; unfold restore_env; cbn [fold_left];
      rewrite ?E1, ?E2, ?E3, ?E4, ?E5, ?E6;
      (split; [vm_compute; reflexivity|]);
      (split; [repeat (constructor;
                       [first [exact W1 | exact W2 | exact W3
                              | exact (W4 d) | exact W5 | exact (W6 t)]|]);
               constructor|]);
      repeat split; reflexivity.
  - unfold ret. eexists; eexists. split; [reflexivity|].
    destruct (environ "DISPLAY") as [d|];
      destruct (Py.truthy (getenv environ "XDG_RUNTIME_DIR")
                && Py.truthy (getenv environ "WAYLAND_DISPLAY"));
      cbn [app]; unfold restore_env; cbn [fold_left];
      rewrite ?E1, ?E2, ?E3, ?E4, ?E5, ?E6;
      (split; [vm_compute; reflexivity|]);
      (split; [repeat (constructor;
                       [first [exact W1 | exact W2 | exact W3
                              | exact (W4 d) | exact W5]|]);
               constructor|]);
      repeat split; reflexivity.
Qed.

Lemma pkexec_env_restored_witness :
  exists l h',
    pkexec_env env_silent "/home/ann" (fun _ => None) [] = (Ok l, h')
    /\ parse_args l = Continue
    /\ Forall (fun a =>
                 Py.contains "=" a = true
                 /\ in_list (nth 0 (Py.split1 "="%char a) "") ALLOWED_ENV
                    = true) l
    /\ restore_env l (fun _ => None) "USER_HOME" = Some "/home/ann"
    /\ restore_env l (fun _ => None) "GTK_A11Y" = Some "none"
    /\ restore_env l (fun _ => None) "GTK_USE_PORTAL" = Some "0"
    /\ restore_env l (fun _ => None) "DISPLAY" = None.
Proof.
  exact (pkexec_env_restored env_silent "/home/ann" (fun _ => None)
           (fun _ => None) [] env_silent_well_behaved).
Defined.

(* ================================================================== *)
(** * Further properties: the main thread *)
(* ================================================================== *)






(** [join_network] in full: while busy, or for a text that does not pass
    the validity test once stripped, nothing changes, the text in the entry
    included; otherwise the join closure for the stripped text is the one
    task submitted, the busy flag is set, the joining status is shown and
    the entry is emptied. *)
Theorem join_network_outcomes (a : App) :
  let nid := Py.strip (join_entry_text (ui a)) in
  if busy a || negb (valid_network_id nid) then join_network a = a
  else pool (join_network a) = (pool a ++ [AsyncTask (JoinWork nid)])%list
       /\ busy (join_network a) = true
       /\ join_entry_text (ui (join_network a)) = ""
       /\ status (ui (join_network a))
          = status_markup "WARN" "joining network...".
Proof.
  cbv zeta. unfold join_network.
  destruct (busy a) eqn:B; cbn [orb]; [reflexivity|].
  destruct (valid_network_id _); cbn [negb]; [|reflexivity].
  unfold _run_async. rewrite B. repeat split.
Qed.

(** [set_busy(True, ...)] greys out the controls: the join button and the
    entry always; the service buttons (as many as before) and the autostart
    box when the service manager is known; the route box when the network
    manager is known; the firewall box when either the firewall or the
    service manager is known.  Capabilities, pool and entry text are not
    touched. *)
Theorem set_busy_greys_out (label : option string) (a : App) :
  let a' := set_busy true label a in
  busy a' = true
  /\ join_btn (ui a') = false /\ join_entry (ui a') = false
  /\ spinner_visible (ui a') = true
  /\ List.length (service_btns (ui a')) = List.length (service_btns (ui a))
  /\ (if is_some (has_systemd a)
      then Forall (fun b => b = false) (service_btns (ui a'))
           /\ enable_check (ui a') = false
      else service_btns (ui a') = service_btns (ui a)
           /\ enable_check (ui a') = enable_check (ui a))
  /\ (if is_some (has_nm a) then route_check (ui a') = false
      else route_check (ui a') = route_check (ui a))
  /\ (if is_some (fw_type a) || is_some (has_systemd a)
      then firewall_check (ui a') = false
      else firewall_check (ui a') = firewall_check (ui a))
  /\ (has_systemd a', has_nm a', fw_type a', pool a')
     = (has_systemd a, has_nm a, fw_type a, pool a)
  /\ join_entry_text (ui a') = join_entry_text (ui a).
Proof.
  cbv zeta. unfold set_busy. cbn.
  repeat split.
  - destruct (has_systemd a); [apply length_map|reflexivity].
  - destruct (has_systemd a) as [hs|]; cbn; [|now split].
    split; [|reflexivity]. apply Forall_forall. intros b Hb.
    apply in_map_iff in Hb as (x & <- & _). reflexivity.
  - now destruct (has_nm a).
  - now destruct (is_some (fw_type a) || is_some (has_systemd a)).
Qed.

(** ** [_apply_refresh] *)

(** The six markups of the status label are pairwise different, so the
    label tells the cases apart. *)
Lemma status_ok_only (st text : string) :
  In (st, text) [("WARN", "service not found"); ("OFFLINE", "failed");
                 ("WARN", "starting..."); ("WARN", "active (unmanaged)");
                 ("OFFLINE", "inactive")] ->
  status_markup st text <> status_markup "OK" "active".
Proof.
  intros H E. apply String.eqb_eq in E.
  repeat (destruct H as [H|H];
          [injection H as <- <-; vm_compute in E; discriminate E|]).
  destruct H.
Qed.

(** The status shows OK exactly when the service manager is not known to
    be absent, the unit is active and the daemon answers. *)
Theorem apply_refresh_status_ok (data : RefreshData) (w : Window) :
  status (ui (w_app (_apply_refresh data w))) = status_markup "OK" "active"
  <-> has_systemd (w_app w) <> Some false
      /\ rd_state data = "active" /\ rd_cli_online data = true.
Proof.
  cbn [_apply_refresh w_app ui status]. unfold refresh_status.
  assert (Hne : forall st text,
             In (st, text)
                [("WARN", "service not found"); ("OFFLINE", "failed");
                 ("WARN", "starting..."); ("WARN", "active (unmanaged)");
                 ("OFFLINE", "inactive")] ->
             status_markup st text = status_markup "OK" "active" -> False)
    by (intros st text Hin; exact (status_ok_only st text Hin)).
  destruct (has_systemd (w_app w)) as [[|]|];
    destruct (String.eqb_spec (rd_state data) "failed") as [Ef|Ef];
    destruct (String.eqb_spec (rd_state data) "active") as [Ea|Ea];
    destruct (rd_cli_online data); cbn [andb];
    (split; [intro H | intros (H1 & H2 & H3)]);
    try congruence;
    try (exfalso; eapply Hne; [|exact H]; cbn; tauto);
    try (repeat split; congruence).
Qed.

(** The gate over a whole cycle: after an accepted [_run_async] the next
    one is refused; after any applied refresh it is accepted again.  The
    refresh clears the flag, stops the spinner and keeps the pool and the
    capabilities. *)
Theorem refresh_reopens_gate (label1 label2 : string) (fn1 fn2 : Closure)
    (data : RefreshData) (w : Window) :
  let started := with_app (snd (_run_async label1 fn1 (w_app w))) w in
  let refreshed := _apply_refresh data started in
  fst (_run_async label2 fn2 (w_app started)) = false
  /\ fst (_run_async label2 fn2 (w_app refreshed)) = true
  /\ busy (w_app refreshed) = false
  /\ spinner_visible (ui (w_app refreshed)) = false
  /\ pool (w_app refreshed) = pool (w_app started)
  /\ (has_systemd (w_app refreshed), has_nm (w_app refreshed),
      fw_type (w_app refreshed))
     = (has_systemd (w_app w), has_nm (w_app w), fw_type (w_app w)).
Proof.
  cbv zeta. cbn [with_app w_app _apply_refresh].
  assert (Hs : busy (snd (_run_async label1 fn1 (w_app w))) = true
               /\ (has_systemd (snd (_run_async label1 fn1 (w_app w))),
                   has_nm (snd (_run_async label1 fn1 (w_app w))),
                   fw_type (snd (_run_async label1 fn1 (w_app w))))
                  = (has_systemd (w_app w), has_nm (w_app w),
                     fw_type (w_app w))).
  { unfold _run_async. destruct (busy (w_app w)) eqn:B; cbn [snd].
    - now split.
    - now split. }
  destruct Hs as [Hb Hc].
  generalize dependent (snd (_run_async label1 fn1 (w_app w))).
  intros a1 Hb Hc. unfold _run_async. rewrite Hb. cbn.
  repeat split. exact Hc.
Qed.

(** Each of the two lists is either the placeholder label alone or rows
    of its own kind only, never empty and never a mix; with the daemon
    offline it is the placeholder. *)
Theorem rebuilt_lists_shape (cli_online : bool) (networks peers : string) :
  (rebuild_networks cli_online networks = [LabelChild "No networks"]
   \/ (rebuild_networks cli_online networks <> []
       /\ Forall (fun c => exists r, c = NetworkChild r)
            (rebuild_networks cli_online networks)))
  /\ (rebuild_peers cli_online peers = [LabelChild "No peers connected"]
      \/ (rebuild_peers cli_online peers <> []
          /\ Forall (fun c => exists r, c = PeerChild r)
               (rebuild_peers cli_online peers)))
  /\ rebuild_networks false networks = [LabelChild "No networks"]
  /\ rebuild_peers false peers = [LabelChild "No peers connected"].
Proof.
  assert (Hn : forall lines,
             Forall (fun c => exists r, c = NetworkChild r)
               (flat_map (network_line []) lines)).
  { induction lines as [|l ls IH]; simpl; [constructor|].
    apply Forall_app. split; [|exact IH].
    rewrite network_line_valid. destruct (_ && _); repeat constructor.
    eexists; reflexivity. }
  assert (Hp : forall lines,
             Forall (fun c => exists r, c = PeerChild r)
               (flat_map (peer_line []) lines)).
  { induction lines as [|l ls IH]; simpl; [constructor|].
    apply Forall_app. split; [|exact IH].
    unfold peer_line. destruct (_ && _); repeat constructor.
    eexists; reflexivity. }
  split; [|split; [|split; reflexivity]].
  - unfold rebuild_networks. destruct cli_online; [|now left].
    rewrite fold_network_line. cbn [app].
    specialize (Hn (tl (Py.split_on newline networks))).
    destruct (flat_map _ _) as [|c l]; [now left|].
    right. split; [discriminate|exact Hn].
  - unfold rebuild_peers. destruct cli_online; [|now left].
    rewrite fold_peer_line. cbn [app].
    specialize (Hp (tl (Py.split_on newline peers))).
    destruct (flat_map _ _) as [|c l]; [now left|].
    right. split; [discriminate|exact Hp].
Qed.

(* ================================================================== *)
(** * Further properties: the closures run on the pool *)
(* ================================================================== *)

Section TaskFacts.

Variable env : Env.
Variable listdir : History -> Res (list string).
Variable denied : FsOp -> bool.
Variable create_mode : Z.

(** *** What never touches the disk *)

Lemma on_history_keeps_disk {A} (m : M A) : keeps_disk (on_history m).
Proof. intro w. unfold on_history. now destruct (m (fst w)). Qed.

Lemma ret_keeps_disk {A} (a : A) : keeps_disk (ret (S:=World) a).
Proof. intro w. reflexivity. Qed.

Lemma bind_keeps_disk {A B} (m : St World A) (k : A -> St World B) :
  keeps_disk m -> (forall a, keeps_disk (k a)) -> keeps_disk (bind m k).
Proof.
  intros Hm Hk w. unfold bind. specialize (Hm w).
  destruct (m w) as [[a|e] w'] eqn:E; cbn [snd] in *.
  - now rewrite (Hk a w').
  - exact Hm.
Qed.

Lemma for_each_keeps_disk {A} (l : list A) (body : A -> St World unit) :
  (forall x, keeps_disk (body x)) -> keeps_disk (for_each l body).
Proof.
  intro Hb. induction l as [|x r IH]; cbn [for_each].
  - apply ret_keeps_disk.
  - apply bind_keeps_disk; [apply Hb|intros _; exact IH].
Qed.

(** The disk after either toggle closure is the disk after its first
    step, the call of [write_dispatcher], whatever the commands that
    follow do, an exception included. *)
Lemma route_work_disk (fw : option string) (active fw_active : bool)
    (h : History) (d : Disk) :
  snd (snd (route_work env listdir denied create_mode fw active fw_active
              (h, d)))
  = snd (write_dispatcher denied create_mode active
           (if fw_active then fw else None) d).
Proof.
  unfold route_work, bind at 1, on_disk at 1. cbn [fst snd].
  destruct (write_dispatcher _ _ _ _ d) as [[[]|e] d'] eqn:E; cbn [snd];
    [|reflexivity].
  match goal with
  | |- snd (snd (?m ?w)) = _ =>
      assert (K : keeps_disk m); [|exact (K w)]
  end.
  apply bind_keeps_disk; [apply on_history_keeps_disk|].
  intro ifaces. apply for_each_keeps_disk. intro iface.
  apply bind_keeps_disk; [apply on_history_keeps_disk|].
  intros _. apply ret_keeps_disk.
Qed.

Lemma firewall_work_disk (fw : option string) (active route_active : bool)
    (h : History) (d : Disk) :
  snd (snd (firewall_work env listdir denied create_mode fw active
              route_active (h, d)))
  = snd (write_dispatcher denied create_mode route_active
           (if active then fw else None) d).
Proof.
  unfold firewall_work, bind at 1, on_disk at 1. cbn [fst snd].
  destruct (write_dispatcher _ _ _ _ d) as [[[]|e] d'] eqn:E; cbn [snd];
    [|reflexivity].
  match goal with
  | |- snd (snd (?m ?w)) = _ =>
      assert (K : keeps_disk m); [|exact (K w)]
  end.
  destruct (fw_is fw "firewalld").
  - apply bind_keeps_disk; [apply on_history_keeps_disk|].
    intro ifaces. apply for_each_keeps_disk. intro iface.
    apply bind_keeps_disk; [apply on_history_keeps_disk|].
    intros _. apply ret_keeps_disk.
  - destruct (fw_is fw "ufw"); [|apply ret_keeps_disk].
    destruct active;
      (apply bind_keeps_disk; [apply on_history_keeps_disk|]; intros _;
       apply bind_keeps_disk; [apply on_history_keeps_disk|]; intros _;
       apply ret_keeps_disk).
Qed.

(** What [read_dispatcher] finds after an unrefused [write_dispatcher]. *)
Lemma read_after_write (route : bool) (fw : option string) (d : Disk) :
  (forall op, denied op = false) ->
  In fw [None; Some "firewalld"; Some "ufw"] ->
  fst (read_dispatcher denied
         (snd (write_dispatcher denied create_mode route fw d)))
  = Ok (route, is_some fw).
Proof.
  intros Hall Hfw. rewrite write_dispatcher_disk.
  unfold read_dispatcher, try_except, bind, open_read, ret.
  rewrite !Hall.
  destruct Hfw as [<-|[<-|[<-|[]]]]; destruct route;
    cbn [negb andb fw_truthy Py.truthy is_some orb]; cbv zeta;
    vm_compute; reflexivity.
Qed.

(** Both toggle closures persist the joint state of the two check boxes:
    when no call on the file is refused, what [read_dispatcher] reports
    after either closure has run is the route box and the firewall box,
    the latter only if a firewall was detected; this holds whatever the
    operating system answers to the commands that follow the write. *)
Theorem toggles_persisted (fw : option string) (route firewall : bool)
    (h : History) (d : Disk) :
  (forall op, denied op = false) ->
  In fw [None; Some "firewalld"; Some "ufw"] ->
  fst (read_dispatcher denied
         (snd (snd (route_work env listdir denied create_mode fw route
                      firewall (h, d)))))
  = Ok (route, firewall && is_some fw)
  /\ fst (read_dispatcher denied
            (snd (snd (firewall_work env listdir denied create_mode fw
                         firewall route (h, d)))))
     = Ok (route, firewall && is_some fw).
Proof.
  intros Hall Hfw.
  rewrite route_work_disk, firewall_work_disk.
  destruct firewall; cbn [andb].
  - split; now apply read_after_write.
  - split; (rewrite read_after_write; [reflexivity|exact Hall|now left]).
Qed.

(** *** What the closures run *)

Hypothesis env_ok : well_behaved env.
Hypothesis listdir_fine : listdir_ok listdir.

Lemma for_each_events {A} (l : list A) (body : A -> St World unit)
    (ev : A -> Event) :
  (forall x h d, body x (h, d) = (Ok tt, ((h ++ [ev x])%list, d))) ->
  forall h d,
    for_each l body (h, d) = (Ok tt, ((h ++ map ev l)%list, d)).
Proof.
  intro Hb. induction l as [|x r IH]; intros h d; cbn [for_each map].
  - unfold ret. now rewrite app_nil_r.
  - unfold bind. rewrite Hb, IH. now rewrite <- app_assoc.
Qed.

Lemma get_zt_ifaces_returns (h : History) (d : Disk) :
  on_history (get_zt_ifaces listdir) (h, d)
  = (Ok (zt_names (listdir h)), (h, d)).
Proof.
  unfold on_history, get_zt_ifaces, try_except, zt_names. cbn [fst snd].
  destruct (listdir h) as [l|e] eqn:E; [reflexivity|].
  now rewrite (listdir_fine h e E).
Qed.

Lemma cmd_step (argv : list string) (h : History) (d : Disk) :
  (on_history (cmd env argv CMD_TIMEOUT) ;;; ret tt) (h, d)
  = (Ok tt, ((h ++ [EvRun argv CMD_TIMEOUT])%list, d)).
Proof.
  unfold bind, on_history. cbn [fst snd].
  now destruct (cmd_returns env env_ok argv CMD_TIMEOUT h) as (out & ->).
Qed.

(** What [route_work] and [firewall_work] leave behind: the history with
    the commands run, the disk as written. *)
Lemma route_work_trace (fw : option string) (active fw_active : bool)
    (h : History) (d : Disk) :
  route_work env listdir denied create_mode fw active fw_active (h, d)
  = (Ok tt,
     ((h ++ map (fun iface =>
                   EvRun ["ip"; "route"; if active then "add" else "del";
                          "255.255.255.255/32"; "dev"; iface] CMD_TIMEOUT)
              (zt_names (listdir h)))%list,
      snd (write_dispatcher denied create_mode active
             (if fw_active then fw else None) d))).
Proof.
  unfold route_work, bind at 1, on_disk at 1. cbn [fst snd].
  pose proof (write_dispatcher_returns denied create_mode active
                (if fw_active then fw else None) d) as R.
  destruct (write_dispatcher _ _ _ _ d) as [r d']. cbn [fst snd] in *.
  subst r. unfold bind at 1. rewrite get_zt_ifaces_returns.
  apply for_each_events. intros x h0 d0. apply cmd_step.
Qed.

Lemma firewall_work_trace (fw : option string)
    (active route_active : bool) (h : History) (d : Disk) :
  firewall_work env listdir denied create_mode fw active route_active (h, d)
  = (Ok tt,
     ((h ++
       (if fw_is fw "firewalld" then
          map (fun iface =>
                 EvRun ["firewall-cmd"; "--zone=trusted";
                        ((if active then "--add-interface"
                          else "--remove-interface") ++ "=" ++ iface)%string]
                   CMD_TIMEOUT)
            (zt_names (listdir h))
        else if fw_is fw "ufw" then
          if active then
            [EvRun ["ufw"; "allow"; "in"; "on"; "zt+"] CMD_TIMEOUT;
             EvRun ["ufw"; "allow"; "out"; "on"; "zt+"] CMD_TIMEOUT]
          else
            [EvRun ["ufw"; "delete"; "allow"; "in"; "on"; "zt+"] CMD_TIMEOUT;
             EvRun ["ufw"; "delete"; "allow"; "out"; "on"; "zt+"]
               CMD_TIMEOUT]
        else []))%list,
      snd (write_dispatcher denied create_mode route_active
             (if active then fw else None) d))).
Proof.
  unfold firewall_work, bind at 1, on_disk at 1. cbn [fst snd].
  pose proof (write_dispatcher_returns denied create_mode route_active
                (if active then fw else None) d) as R.
  destruct (write_dispatcher _ _ _ _ d) as [r d']. cbn [fst snd] in *.
  subst r.
  destruct (fw_is fw "firewalld").
  - unfold bind at 1. rewrite get_zt_ifaces_returns.
    apply for_each_events. intros x h0 d0. apply cmd_step.
  - destruct (fw_is fw "ufw").
    + destruct active; unfold bind at 1; unfold on_history at 1;
        cbn [fst snd];
        match goal with
        | |- context [cmd env ?argv ?t ?h'] =>
            destruct (cmd_returns env env_ok argv t h') as (o1 & ->)
        end;
        rewrite cmd_step, <- app_assoc; reflexivity.
    + unfold ret. now rewrite app_nil_r.
Qed.

(** [route_work] runs one [ip route] command for each listed interface
    whose name begins with zt, in the order of the listing, and for no
    other interface; none at all when the listing fails. *)
Theorem route_work_commands (fw : option string) (active fw_active : bool)
    (h : History) (d : Disk) :
  let action := if active then "add" else "del" in
  route_work env listdir denied create_mode fw active fw_active (h, d)
  = (Ok tt,
     ((h ++ map (fun iface =>
                   EvRun ["ip"; "route"; action; "255.255.255.255/32";
                          "dev"; iface] CMD_TIMEOUT)
              (zt_names (listdir h)))%list,
      snd (write_dispatcher denied create_mode active
             (if fw_active then fw else None) d)))
  /\ Forall (fun iface => Py.startswith iface "zt" = true)
       (zt_names (listdir h)).
Proof.
  cbv zeta. split.
  - apply route_work_trace.
  - unfold zt_names. destruct (listdir h); [|constructor].
    apply Forall_forall. intros x Hx. now apply filter_In in Hx.
Qed.

(** [firewall_work] runs, after the write: with firewalld, one zone
    command for each zt interface; with ufw, the two allow rules or their
    two deletions; with no firewall detected, or any other kind, nothing. *)
Theorem firewall_work_commands (fw : option string)
    (active route_active : bool) (h : History) (d : Disk) :
  firewall_work env listdir denied create_mode fw active route_active (h, d)
  = (Ok tt,
     ((h ++
       (if fw_is fw "firewalld" then
          map (fun iface =>
                 EvRun ["firewall-cmd"; "--zone=trusted";
                        ((if active then "--add-interface"
                          else "--remove-interface") ++ "=" ++ iface)%string]
                   CMD_TIMEOUT)
            (zt_names (listdir h))
        else if fw_is fw "ufw" then
          if active then
            [EvRun ["ufw"; "allow"; "in"; "on"; "zt+"] CMD_TIMEOUT;
             EvRun ["ufw"; "allow"; "out"; "on"; "zt+"] CMD_TIMEOUT]
          else
            [EvRun ["ufw"; "delete"; "allow"; "in"; "on"; "zt+"] CMD_TIMEOUT;
             EvRun ["ufw"; "delete"; "allow"; "out"; "on"; "zt+"]
               CMD_TIMEOUT]
        else []))%list,
      snd (write_dispatcher denied create_mode route_active
             (if active then fw else None) d))).
Proof. apply firewall_work_trace. Qed.

Lemma run_closure_quiet (fw : option string) (fn : Closure) :
  quiet (run_closure env listdir denied create_mode fw fn).
Proof.
  intros h d. destruct fn as [a f|a r|action|nid|nid]; cbn [run_closure].
  - rewrite route_work_trace.
    eexists; eexists. split; [reflexivity|].
    induction (zt_names (listdir h)); [reflexivity|exact IHl].
  - rewrite firewall_work_trace.
    eexists; eexists. split; [reflexivity|].
    destruct (fw_is fw "firewalld").
    + induction (zt_names (listdir h)); [reflexivity|exact IHl].
    + destruct (fw_is fw "ufw"); [now destruct a|reflexivity].
  - unfold enable_work, on_history, bind. cbn [fst snd].
    destruct (cmd_returns env env_ok ["systemctl"; action; "zerotier-one"]
                CMD_TIMEOUT h) as (out & ->).
    eexists; eexists. split; [reflexivity|reflexivity].
  - unfold leave_work, on_history, bind, sleep, emit. cbn [fst snd].
    destruct (cmd_returns env env_ok ["zerotier-cli"; "leave"; nid]
                CMD_TIMEOUT h) as (out & ->).
    rewrite <- app_assoc. eexists; eexists. split; reflexivity.
  - unfold join_work, on_history, bind, sleep, emit. cbn [fst snd].
    destruct (cmd_returns env env_ok ["zerotier-cli"; "join"; nid]
                CMD_TIMEOUT h) as (out & ->).
    rewrite <- app_assoc. eexists; eexists. split; reflexivity.
Qed.

(** A refresh always follows: every task submitted to the pool, the
    service controller's and every closure handed to [_run_async], ends
    normally, and the one refresh it schedules is its last effect. *)
Theorem task_ends_with_refresh (hs : option bool) (fw : option string)
    (t : Task) (h : History) (d : Disk) :
  exists evs d',
    run_task env listdir denied create_mode hs fw t (h, d)
    = (Ok tt, ((h ++ evs ++ [EvIdleAdd RefreshAsync])%list, d'))
    /\ filter is_refresh evs = [].
Proof.
  destruct t as [fn|action]; cbn [run_task].
  - unfold bind.
    destruct (run_closure_quiet fw fn h d) as (evs & d' & -> & F).
    exists evs, d'. unfold on_history, idle_add, emit. cbn [fst snd].
    now rewrite <- app_assoc.
  - unfold on_history, service_work, bind. cbn [fst snd].
    destruct (cmd_returns env env_ok ["systemctl"; action; "zerotier-one"]
                15%Z h) as (out & ->).
    destruct (poll_turns env env_ok hs (expects_active action) 10
                (h ++ [EvRun ["systemctl"; action; "zerotier-one"] 15])%list)
      as (k & _ & _ & -> & _).
    unfold idle_add, emit.
    exists (EvRun ["systemctl"; action; "zerotier-one"] 15
            :: rounds hs k), d.
    split.
    + now rewrite <- !app_assoc.
    + cbn [filter is_refresh]. apply rounds_no_refresh.
Qed.

End TaskFacts.

Lemma listdir_example_ok : listdir_ok listdir_example.
Proof. intros h e H. discriminate H. Qed.

Lemma toggles_persisted_witness :
  fst (read_dispatcher no_denial
         (snd (snd (route_work env_silent listdir_example no_denial
                      default_mode (Some "ufw") true true ([], None)))))
  = Ok (true, true && is_some (Some "ufw"))
  /\ fst (read_dispatcher no_denial
            (snd (snd (firewall_work env_silent listdir_example no_denial
                         default_mode (Some "ufw") true true ([], None)))))
     = Ok (true, true && is_some (Some "ufw")).
Proof.
  apply (toggles_persisted env_silent listdir_example no_denial default_mode
           (Some "ufw") true true [] None).
  - intro op. reflexivity.
  - simpl. auto.
Defined.

Lemma route_work_commands_witness :
  route_work env_silent listdir_example no_denial default_mode None true false
    ([], None)
  = (Ok tt,
     (([] ++ map (fun iface =>
                    EvRun ["ip"; "route"; "add"; "255.255.255.255/32";
                           "dev"; iface] CMD_TIMEOUT)
               (zt_names (listdir_example [])))%list,
      snd (write_dispatcher no_denial default_mode true None None)))
  /\ Forall (fun iface => Py.startswith iface "zt" = true)
       (zt_names (listdir_example [])).
Proof.
  exact (route_work_commands env_silent listdir_example no_denial
           default_mode env_silent_well_behaved listdir_example_ok
           None true false [] None).
Defined.

(** On the example host only the ZeroTier interface gets the route. *)
Example route_work_example :
  fst (snd (route_work env_silent listdir_example no_denial default_mode
              None true false ([], None)))
  = [EvRun ["ip"; "route"; "add"; "255.255.255.255/32"; "dev";
            "ztabcdef12"] CMD_TIMEOUT].
Proof. vm_compute. reflexivity. Qed.

Lemma firewall_work_commands_witness :
  firewall_work env_silent listdir_example no_denial default_mode
    (Some "ufw") false true ([], None)
  = (Ok tt,
     ([EvRun ["ufw"; "delete"; "allow"; "in"; "on"; "zt+"] CMD_TIMEOUT;
       EvRun ["ufw"; "delete"; "allow"; "out"; "on"; "zt+"] CMD_TIMEOUT],
      snd (write_dispatcher no_denial default_mode true None None))).
Proof.
  exact (firewall_work_commands env_silent listdir_example no_denial
           default_mode env_silent_well_behaved listdir_example_ok
           (Some "ufw") false true [] None).
Defined.

Lemma task_ends_with_refresh_witness :
  exists evs d',
    run_task env_silent listdir_example no_denial default_mode (Some true)
      (Some "firewalld") (AsyncTask (RouteWork true true)) ([], None)
    = (Ok tt, (([] ++ evs ++ [EvIdleAdd RefreshAsync])%list, d'))
    /\ filter is_refresh evs = [].
Proof.
  exact (task_ends_with_refresh env_silent listdir_example no_denial
           default_mode env_silent_well_behaved listdir_example_ok
           (Some true) (Some "firewalld") (AsyncTask (RouteWork true true))
           [] None).
Defined.

(** ** Exceptions that [cmd] does not absorb *)

(** When the join command raises an exception outside the three classes
    that [cmd] absorbs, the task ends with that exception right after the
    command: the sleep is skipped and no refresh is scheduled. *)
Theorem join_task_uncaught (env : Env) (listdir : History -> Res (list string))
    (denied : FsOp -> bool) (create_mode : Z) (hs : option bool)
    (fw : option string) (nid : string) (h : History) (d : Disk)
    (e : PyExc) :
  run_outcome env h ["zerotier-cli"; "join"; nid] CMD_TIMEOUT = Raise e ->
  caught e [TimeoutExpired; FileNotFoundError; OSError] = false ->
  run_task env listdir denied create_mode hs fw (AsyncTask (JoinWork nid))
    (h, d)
  = (Raise e,
     ((h ++ [EvRun ["zerotier-cli"; "join"; nid] CMD_TIMEOUT])%list, d)).
Proof.
  intros Hrun Hc.
  cbn [run_task run_closure].
  unfold bind, on_history, join_work, bind, cmd, try_except, bind,
    subprocess_run.
  cbn [fst snd]. now rewrite Hrun, Hc.
Qed.

Lemma join_task_uncaught_witness :
  run_task env_undecodable listdir_example no_denial default_mode (Some true)
    None (AsyncTask (JoinWork "8056c2e21c000001")) ([], None)
  = (Raise ValueError,
     ([EvRun ["zerotier-cli"; "join"; "8056c2e21c000001"] CMD_TIMEOUT],
      None)).
Proof.
  apply (join_task_uncaught env_undecodable listdir_example no_denial
           default_mode (Some true) None "8056c2e21c000001" [] None
           ValueError); reflexivity.
Defined.

(** ** Capability detection *)

Section ProbeFacts.

Variable env : Env.
Hypothesis env_ok : well_behaved env.

Lemma detect_firewall_returns (h : History) :
  exists fw h',
    detect_firewall env h = (Ok fw, h')
    /\ In fw [None; Some "firewalld"; Some "ufw"]
    /\ (fw = Some "firewalld" -> firewalld_detected env h).
Proof.
  unfold detect_firewall, bind.
  destruct (probe_firewalld_spec env env_ok h) as (b & -> & Hb).
  destruct b.
  - eexists; eexists. split; [reflexivity|]. split; [cbn; auto|].
    intros _. now apply Hb.
  - match goal with
    | |- context [probe_ufw env ?h2] =>
        destruct (probe_ufw_spec env env_ok h2) as (u & h' & -> & _)
    end.
    destruct u; eexists; eexists; (split; [reflexivity|]);
      (split; [cbn; auto|discriminate]).
Qed.

(** The probes of [_init_capabilities] end normally and the firewall kind
    they find is one of None, firewalld and ufw. *)
Theorem init_probes_returns (h : History) :
  exists has_sd nm fw h',
    init_probes env h = (Ok (has_sd, nm, fw), h')
    /\ In fw [None; Some "firewalld"; Some "ufw"].
Proof.
  unfold init_probes, bind.
  destruct (cmd_returns env env_ok ["systemctl"; "cat"; "zerotier-one.service"]
              CMD_TIMEOUT h) as (o1 & ->).
  match goal with
  | |- context [cmd env ?argv ?t ?h'] =>
      destruct (cmd_returns env env_ok argv t h') as (o2 & ->)
  end.
  match goal with
  | |- context [detect_firewall env ?h'] =>
      destruct (detect_firewall_returns h') as (fw & h3 & -> & Hin & _)
  end.
  unfold ret. do 4 eexists. split; [reflexivity|exact Hin].
Qed.

(** On a host where [systemctl] cannot be run, detection finds no service
    manager and no network manager, and never firewalld, whose state is
    asked of [systemctl]: only ufw can be found. *)
Theorem init_probes_without_systemctl (h : History) :
  (forall h' argv timeout,
     nth 0 argv "" = "systemctl" ->
     run_outcome env h' argv timeout = Raise FileNotFoundError) ->
  exists fw h',
    init_probes env h = (Ok (false, false, fw), h')
    /\ (fw = None \/ fw = Some "ufw").
Proof.
  intro Hno.
  assert (Hcmd : forall argv h',
             nth 0 argv "" = "systemctl" ->
             cmd env argv CMD_TIMEOUT h'
             = (Ok "", (h' ++ [EvRun argv CMD_TIMEOUT])%list)).
  { intros argv h' Hs.
    unfold cmd, try_except, bind, subprocess_run.
    now rewrite (Hno h' argv CMD_TIMEOUT Hs). }
  unfold init_probes, bind.
  rewrite !Hcmd by reflexivity.
  match goal with
  | |- context [detect_firewall env ?h'] =>
      destruct (detect_firewall_returns h') as (fw & h3 & E & Hin & Hfd);
      rewrite E
  end.
  unfold ret. exists fw, h3. split; [reflexivity|].
  destruct Hin as [<-|[<-|[<-|[]]]]; auto.
  exfalso. destruct (Hfd eq_refl) as [_ Hact].
  rewrite Hcmd in Hact by reflexivity. discriminate Hact.
Qed.

End ProbeFacts.

Lemma env_no_systemctl_well_behaved : well_behaved env_no_systemctl.
Proof.
  intros h argv timeout e H. simpl in H.
  destruct (String.eqb (nth 0 argv "") "systemctl"); [|discriminate H].
  now injection H as <-.
Qed.

Lemma init_probes_returns_witness :
  exists has_sd nm fw h',
    init_probes env_both_firewalls [] = (Ok (has_sd, nm, fw), h')
    /\ In fw [None; Some "firewalld"; Some "ufw"].
Proof.
  exact (init_probes_returns env_both_firewalls
           env_both_firewalls_well_behaved []).
Defined.

Lemma init_probes_without_systemctl_witness :
  exists fw h',
    init_probes env_no_systemctl [] = (Ok (false, false, fw), h')
    /\ (fw = None \/ fw = Some "ufw").
Proof.
  apply (init_probes_without_systemctl env_no_systemctl
           env_no_systemctl_well_behaved []).
  intros h' argv timeout H. simpl. now rewrite H.
Defined.

(** ** [get_service_info]: reading the answer of [systemctl show] *)

Lemma mem_append (c : ascii) (a b : string) :
  Str.mem c (a ++ b) = Str.mem c a || Str.mem c b.
Proof.
  induction a as [|x r IH]; [reflexivity|].
  change (String x r ++ b) with (String x (r ++ b)). cbn [Str.mem].
  now rewrite IH, orb_assoc.
Qed.

Lemma split_on_from_plain (sep : ascii) (s : string) : forall cur,
  Str.mem sep s = false -> Py.split_on_from sep cur s = [cur ++ s].
Proof.
  induction s as [|c r IH]; intros cur Hs; cbn [Py.split_on_from].
  - f_equal. induction cur as [|x t IHc]; simpl; [reflexivity|].
    now rewrite <- IHc.
  - cbn [Str.mem] in Hs. apply orb_false_iff in Hs as [Hc Hr].
    rewrite Ascii.eqb_sym in Hc. rewrite Hc, (IH _ Hr).
    now rewrite append_snoc.
Qed.

Lemma split_on_from_line (sep : ascii) (a b : string) : forall cur,
  Str.mem sep a = false ->
  Py.split_on_from sep cur (a ++ String sep b)
  = (cur ++ a) :: Py.split_on_from sep "" b.
Proof.
  induction a as [|c r IH]; intros cur Ha.
  - change ("" ++ String sep b) with (String sep b).
    cbn [Py.split_on_from]. rewrite Ascii.eqb_refl. f_equal.
    induction cur as [|x t IHc]; simpl; [reflexivity|].
    now rewrite <- IHc.
  - change (String c r ++ String sep b) with (String c (r ++ String sep b)).
    cbn [Str.mem] in Ha. apply orb_false_iff in Ha as [Hc Hr].
    rewrite Ascii.eqb_sym in Hc.
    cbn [Py.split_on_from]. rewrite Hc, (IH _ Hr).
    now rewrite append_snoc.
Qed.

Lemma startswith_append (p s : string) : Py.startswith (p ++ s) p = true.
Proof.
  induction p as [|c r IH]; [apply startswith_nil|].
  change (String c r ++ s) with (String c (r ++ s)).
  cbn [Py.startswith]. now rewrite Ascii.eqb_refl, IH.
Qed.

Lemma append_empty_l (s : string) : "" ++ s = s.
Proof. reflexivity. Qed.

Lemma service_info_line_state (acc : string * bool) (v : string) :
  service_info_line acc ("ActiveState=" ++ v) = (v, snd acc).
Proof.
  unfold service_info_line. destruct acc as [state enabled].
  rewrite (startswith_append "ActiveState=" v).
  change ("ActiveState=" ++ v) with ("ActiveState" ++ "=" ++ v).
  unfold Py.split1. now rewrite split1_from_key.
Qed.

Lemma service_info_line_unit_file (acc : string * bool) (v : string) :
  service_info_line acc ("UnitFileState=" ++ v)
  = (fst acc, String.eqb v "enabled").
Proof.
  unfold service_info_line. destruct acc as [state enabled].
  assert (E : Py.startswith ("UnitFileState=" ++ v) "ActiveState=" = false)
    by reflexivity.
  rewrite E, (startswith_append "UnitFileState=" v).
  change ("UnitFileState=" ++ v) with ("UnitFileState" ++ "=" ++ v).
  unfold Py.split1. now rewrite split1_from_key.
Qed.

(** When both commands complete and [systemctl show] prints the two
    properties, one a line, [get_service_info] gives back the two values:
    the state as printed, equals signs included, and whether the unit file
    state is the word enabled; reachability is whether the answer of the
    daemon holds the word online in any case of letters. *)
Theorem get_service_info_parsed (env : Env) (h : History)
    (state unit_file : string) (r1 r2 : CompletedProcess) :
  run_outcome env h ["zerotier-cli"; "info"] CMD_TIMEOUT = Ok r1 ->
  run_outcome env (h ++ [EvRun ["zerotier-cli"; "info"] CMD_TIMEOUT])%list
    ["systemctl"; "show"; "zerotier-one";
     "--property=ActiveState,UnitFileState"] CMD_TIMEOUT = Ok r2 ->
  Py.strip (stdout r2)
  = "ActiveState=" ++ state ++ nl ++ "UnitFileState=" ++ unit_file ->
  Str.mem newline state = false ->
  Str.mem newline unit_file = false ->
  fst (get_service_info env (Some true) h)
  = Ok (state, String.eqb unit_file "enabled",
        Py.contains "online" (Py.lower (Py.strip (stdout r1)))).
Proof.
  intros H1 H2 Hout Hs Hu.
  unfold get_service_info, bind, cmd, try_except, bind, subprocess_run, ret.
  rewrite H1. cbn [flag_truthy negb]. rewrite H2. cbn [fst].
  rewrite Hout. unfold Py.split_on.
  change ("ActiveState=" ++ state ++ nl ++ "UnitFileState=" ++ unit_file)
    with (("ActiveState=" ++ state)
          ++ String newline ("UnitFileState=" ++ unit_file)).
  rewrite split_on_from_line.
  2:{ rewrite mem_append, Hs. reflexivity. }
  rewrite split_on_from_plain.
  2:{ rewrite mem_append, Hu. reflexivity. }
  rewrite !append_empty_l. cbn [fold_left].
  rewrite service_info_line_state, service_info_line_unit_file.
  reflexivity.
Qed.

Lemma get_service_info_parsed_witness :
  fst (get_service_info env_stopping (Some true) [])
  = Ok ("deactivating", String.eqb "enabled" "enabled",
        Py.contains "online"
          (Py.lower (Py.strip ("200 info 1a2b3c4d5e 1.12.2 ONLINE" ++ nl)))).
Proof.
  apply (get_service_info_parsed env_stopping [] "deactivating" "enabled"
           {| returncode := 0;
              stdout := "200 info 1a2b3c4d5e 1.12.2 ONLINE" ++ nl |}
           {| returncode := 0;
              stdout := "ActiveState=deactivating" ++ nl
                        ++ "UnitFileState=enabled" ++ nl |});
    reflexivity.
Defined.

(** ** The text of the copy button *)

Lemma split_on_from_first (sep : ascii) (s : string) : forall cur,
  exists first rest,
    Py.split_on_from sep cur s = (cur ++ first) :: rest
    /\ Str.mem sep first = false
    /\ Py.startswith s first = true.
Proof.
  induction s as [|c r IH]; intro cur; cbn [Py.split_on_from].
  - exists "", []. repeat split.
    f_equal. induction cur as [|x t IHc]; simpl; [reflexivity|].
    now rewrite <- IHc.
  - destruct (Ascii.eqb c sep) eqn:E.
    + exists "", (Py.split_on_from sep "" r). repeat split.
      f_equal. induction cur as [|x t IHc]; simpl; [reflexivity|].
      now rewrite <- IHc.
    + destruct (IH (cur ++ String c "")) as (first & rest & -> & Hm & Hp).
      exists (String c first), rest. rewrite append_snoc.
      split; [reflexivity|]. split.
      * cbn [Str.mem]. rewrite Ascii.eqb_sym in E. now rewrite E, Hm.
      * cbn [Py.startswith]. now rewrite Ascii.eqb_refl, Hp.
Qed.

(** When a row has a copy button, the text it puts on the clipboard holds
    no slash and is the beginning of the address shown, which is not
    empty: the address without its prefix length. *)
Theorem network_row_copy_text (p : list string) (text : string) :
  net_copy (network_row p) = Some text ->
  Str.mem "/"%char text = false
  /\ Py.startswith (net_ip (network_row p)) text = true
  /\ net_ip (network_row p) <> "".
Proof.
  unfold network_row. cbn [net_copy net_ip].
  set (ip := if 8 <? List.length p then nth 8 p "" else "").
  destruct (Py.truthy ip) eqn:T; [|discriminate].
  intro H. injection H as <-.
  unfold Py.split_on.
  destruct (split_on_from_first "/"%char ip "")
    as (first & rest & -> & Hm & Hp).
  cbn [nth append]. repeat split; try assumption.
  intro E. rewrite E in T. discriminate T.
Qed.

Lemma network_row_copy_text_witness :
  Str.mem "/"%char "10.0.0.2" = false
  /\ Py.startswith
       (net_ip (network_row ["200"; "listnetworks"; "8056c2e21c000001";
                             "lan"; "02:00:00:00:00:01"; "OK"; "PRIVATE";
                             "zt0"; "10.0.0.2/24"])) "10.0.0.2" = true
  /\ net_ip (network_row ["200"; "listnetworks"; "8056c2e21c000001";
                          "lan"; "02:00:00:00:00:01"; "OK"; "PRIVATE";
                          "zt0"; "10.0.0.2/24"]) <> "".
Proof.
  apply (network_row_copy_text
           ["200"; "listnetworks"; "8056c2e21c000001"; "lan";
            "02:00:00:00:00:01"; "OK"; "PRIVATE"; "zt0"; "10.0.0.2/24"]
           "10.0.0.2").
  reflexivity.
Defined.

(* ================================================================== *)
(** * Further properties: what an accepted network id can hold *)
(* ================================================================== *)
















(** *** Stripped strings and tokens *)












(* ================================================================== *)
(** * Further properties: controls and capabilities *)
(* ================================================================== *)

Lemma Forall_map_const (hs : bool) (f : bool) (l : list bool) :
  (f = true -> hs = true) ->
  Forall (fun b => b = true -> hs = true) (map (fun _ => f) l).
Proof. intro H. induction l; simpl; constructor; auto. Qed.

Lemma capped_set_busy (hs nm : bool) (fw : option string) (b : bool)
    (t : option string) (a : App) :
  capped hs nm fw a -> capped hs nm fw (set_busy b t a).
Proof.
  intros (H1 & H2 & H3 & _ & _ & _ & _). unfold capped, set_busy.
  cbn [has_systemd has_nm fw_type ui service_btns enable_check route_check
       firewall_check].
  rewrite H1, H2, H3. cbn [is_some orb].
  repeat (split; [reflexivity|]).
  split; [|split; [|split]].
  - apply Forall_map_const. intro H. now apply andb_true_iff in H.
  - intro H. now apply andb_true_iff in H.
  - intro H. now apply andb_true_iff in H.
  - rewrite orb_true_r. intro H. now apply andb_true_iff in H.
Qed.

Lemma capped_submit (hs nm : bool) (fw : option string) (t : Task) (a : App) :
  capped hs nm fw a -> capped hs nm fw (submit t a).
Proof. exact (fun H => H). Qed.

Lemma capped_set_join_text (hs nm : bool) (fw : option string)
    (text : string) (a : App) :
  capped hs nm fw a -> capped hs nm fw (set_join_text text a).
Proof. exact (fun H => H). Qed.

Lemma capped_run_async (hs nm : bool) (fw : option string) (label : string)
    (fn : Closure) (a : App) :
  capped hs nm fw a -> capped hs nm fw (snd (_run_async label fn a)).
Proof.
  intro H. unfold _run_async. destruct (busy a); cbn [snd]; [exact H|].
  now apply capped_submit, capped_set_busy.
Qed.

Lemma capped_handle (hs nm : bool) (fw : option string) (w : Window)
    (ev : UiEvent) :
  capped hs nm fw (w_app w) -> capped hs nm fw (w_app (handle w ev)).
Proof.
  intro H. destruct ev; cbn [handle with_app w_app].
  - unfold on_route_toggled. destruct (busy (w_app w)); [exact H|].
    now apply capped_run_async.
  - unfold on_firewall_toggled. destruct (busy (w_app w)); [exact H|].
    now apply capped_run_async.
  - unfold on_enable_toggled. destruct (_ || _); [exact H|].
    now apply capped_run_async.
  - unfold service_action. destruct (_ || _); [exact H|].
    now apply capped_submit, capped_set_busy.
  - unfold leave_on_response. destruct yes; [|exact H].
    now apply capped_run_async.
  - unfold join_network. destruct (busy (w_app w)) eqn:B; [exact H|].
    destruct (valid_network_id _); [|exact H].
    unfold _run_async. rewrite B.
    now apply capped_set_join_text, capped_submit, capped_set_busy.
  - unfold _periodic_refresh. destruct (busy (w_app w)); exact H.
Qed.

Lemma capped_apply_refresh (hs nm : bool) (fw : option string)
    (data : RefreshData) (w : Window) :
  capped hs nm fw (w_app w) ->
  capped hs nm fw (w_app (_apply_refresh data w)).
Proof.
  intros (H1 & H2 & H3 & _ & _ & _ & _). unfold capped, _apply_refresh.
  cbn [w_app has_systemd has_nm fw_type ui service_btns enable_check
       route_check firewall_check].
  rewrite H1, H2, H3.
  repeat (split; [reflexivity|]).
  split; [|split; [|split]]; auto.
  now apply Forall_map_const.
Qed.

Lemma capped_init_apply (hs nm : bool) (fw : option string) (w : Window) :
  capped hs nm fw (w_app (init_apply hs nm fw w)).
Proof.
  unfold capped, init_apply, refresh_async.
  cbn [w_app has_systemd has_nm fw_type ui service_btns enable_check
       route_check firewall_check].
  repeat (split; [reflexivity|]).
  split; [|split; [|split]].
  - destruct hs.
    + apply Forall_forall. reflexivity.
    + now apply Forall_map_const.
  - now destruct hs.
  - now destruct nm.
  - destruct fw as [f|]; cbn [text_truthy is_some]; [reflexivity|].
    discriminate.
Qed.

(** Once [apply] has stored the probed capabilities, nothing the main
    thread does afterwards, neither a handler, nor the timer, nor an
    applied refresh, in any number and order, changes them or makes a
    control sensitive whose capability is missing: no service button and
    no autostart box without the systemd unit, no route box without
    NetworkManager, no firewall box without a firewall. *)
Theorem controls_follow_capabilities (hs nm : bool) (fw : option string)
    (w : Window) (events : list MainEvent) :
  let a := w_app (fold_left main_step events (init_apply hs nm fw w)) in
  (has_systemd a, has_nm a, fw_type a) = (Some hs, Some nm, fw)
  /\ (hs = false ->
      Forall (fun b => b = false) (service_btns (ui a))
      /\ enable_check (ui a) = false)
  /\ (nm = false -> route_check (ui a) = false)
  /\ (fw = None -> firewall_check (ui a) = false).
Proof.
  cbv zeta.
  assert (Hinv : forall evs w0, capped hs nm fw (w_app w0) ->
                   capped hs nm fw (w_app (fold_left main_step evs w0))).
  { induction evs as [|e evs IH]; intros w0 H; simpl; [exact H|].
    apply IH. destruct e; cbn [main_step].
    - now apply capped_handle.
    - now apply capped_apply_refresh. }
  destruct (Hinv events _ (capped_init_apply hs nm fw w))
    as (H1 & H2 & H3 & Hb & He & Hr & Hf).
  rewrite H1, H2, H3. split; [reflexivity|]. split; [|split].
  - intros ->. split.
    + eapply Forall_impl; [|exact Hb]. cbv beta. intros b Hx.
      destruct b; [symmetry; now apply Hx|reflexivity].
    + destruct (enable_check _); [symmetry; now apply He|reflexivity].
  - intros ->. destruct (route_check _); [symmetry; now apply Hr|reflexivity].
  - intros ->. destruct (firewall_check _); [|reflexivity].
    symmetry. now apply Hf.
Qed.
